(** * Plane estimation by sequential RANSAC: a shallow embedding

    Source: [SeqRANSAC/PlaneEstimation.cpp].

    The three functions of the file are embedded as they are written:
    - [EstimatePlaneOptimal]: least-squares plane through a point set
      (centroid, centred coordinate matrix, eigenvector of [X^T X]);
    - [PlanePointRANSACDifferences]: point-plane distances, inlier mask and
      inlier count for a threshold;
    - [EstimatePlaneRANSAC]: the sampling loop on top of both.

    Numbers are the machine's: [float] is IEEE-754 binary32 and [double] is
    binary64, both given by the Standard Library's executable [SpecFloat]
    operations (round to nearest even, one rounding per operation); [int] is
    a 32-bit two's complement integer held in [Z] with its wrap-around
    written out.  The C library's [rand] is a cursor into the sequence of
    values it is going to return.  OpenCV's [eigen] is not part of the
    repository and is a parameter of the development. *)

From Stdlib Require Import ZArith List Bool Lia SpecFloat Permutation.
Import ListNotations.

Local Open Scope Z_scope.

(** ** Machine integers *)

Module Int.

Definition INT_MAX : Z := 2147483647.
Definition INT_MIN : Z := -2147483648.

(** Reduction of an integer to the 32-bit two's complement range. *)
Definition wrap (z : Z) : Z := (z + 2147483648) mod 4294967296 - 2147483648.

(** [int num = pts.size()]: conversion of a [size_t] to [int]. *)
Definition of_size (n : nat) : Z := wrap (Z.of_nat n).

(** [c++] on an [int]. *)
Definition incr (c : Z) : Z := wrap (c + 1).

Definition in_range (z : Z) : Prop := INT_MIN <= z <= INT_MAX.

End Int.

(** ** Floating-point numbers *)

(** [float]: binary32. *)
Module F32.

Definition prec : Z := 24.
Definition emax : Z := 128.

Definition t : Type := spec_float.

Definition zero : t := S754_zero false.
Definition add : t -> t -> t := SFadd prec emax.
Definition sub : t -> t -> t := SFsub prec emax.
Definition mul : t -> t -> t := SFmul prec emax.
Definition div : t -> t -> t := SFdiv prec emax.
Definition opp : t -> t := SFopp.
Definition abs : t -> t := SFabs.
Definition ltb : t -> t -> bool := SFltb.
Definition leb : t -> t -> bool := SFleb.
Definition eqb : t -> t -> bool := SFeqb.

(** [(float) n] for an integer [n]. *)
Definition of_int (n : Z) : t := binary_normalize prec emax n 0 false.

(** Rounding of any binary floating-point value to binary32; this is
    [(float) d] for a [double d]. *)
Definition round (x : spec_float) : t :=
  match x with
  | S754_finite s m e => binary_round prec emax s m e
  | _ => x
  end.

(** [(int) x]: truncation toward zero.  The C++ standard leaves the
    conversion undefined when the truncated value does not fit an [int]
    (or [x] is a NaN or an infinity); the model returns what the x86
    conversion instruction does then, [INT_MIN]. *)
Definition to_int (x : t) : Z :=
  match x with
  | S754_zero _ => 0
  | S754_finite s m e =>
      let mag := match e with
                 | Zneg _ => Z.shiftr (Zpos m) (- e)
                 | _ => Z.shiftl (Zpos m) e
                 end in
      let v := if s then - mag else mag in
      if (Int.INT_MIN <=? v) && (v <=? Int.INT_MAX) then v else Int.INT_MIN
  | _ => Int.INT_MIN
  end.

End F32.

(** [double]: binary64. *)
Module F64.

Definition prec : Z := 53.
Definition emax : Z := 1024.

Definition t : Type := spec_float.

Definition zero : t := S754_zero false.
Definition add : t -> t -> t := SFadd prec emax.
Definition sub : t -> t -> t := SFsub prec emax.
Definition mul : t -> t -> t := SFmul prec emax.
Definition div : t -> t -> t := SFdiv prec emax.
Definition opp : t -> t := SFopp.

Definition of_int (n : Z) : t := binary_normalize prec emax n 0 false.

(** [(double) f] for a [float f]: every binary32 value is a binary64
    value, the conversion only renormalises the mantissa. *)
Definition of_float (x : F32.t) : t :=
  match x with
  | S754_finite s m e => binary_round prec emax s m e
  | _ => x
  end.

End F64.

(** ** Data *)

(** [cv::Point3f]. *)
Record Point3f : Type := mkPoint3f { px : F32.t; py : F32.t; pz : F32.t }.

(** [cv::Point3d]. *)
Record Point3d : Type := mkPoint3d { dx : F64.t; dy : F64.t; dz : F64.t }.

(** A plane [Ax + By + Cz + D = 0]: the four-element [float] array
    [plane[0..3]] of the source. *)
Record Plane : Type := mkPlane { pA : F32.t; pB : F32.t; pC : F32.t; pD : F32.t }.

(** [struct RANSACDiffs] of the header, with the three fields the source
    assigns. *)
Record RANSACDiffs : Type := mkRANSACDiffs {
  inliersNum : Z;
  distances : list F32.t;
  isInliers : list bool
}.

(** The points a loop [for (idx = 0; idx < num; idx++) ... pts.at(idx)]
    visits when [num] is [(int) pts.size()]: the first [num] of them.  [num]
    never exceeds the size, so no access is out of range. *)
Definition visited {A : Type} (pts : list A) : list A :=
  firstn (Z.to_nat (Int.of_size (length pts))) pts.

(** A cloud whose size is representable as an [int]. *)
Definition fits_int {A : Type} (pts : list A) : Prop :=
  Z.of_nat (length pts) <= Int.INT_MAX.

(** ** Plane-point differences *)

(** [fabs(A*pt.x + B*pt.y + C*pt.z + D)], evaluated left to right in
    [float]. *)
Definition point_plane_diff (plane : Plane) (pt : Point3f) : F32.t :=
  F32.abs
    (F32.add
       (F32.add
          (F32.add (F32.mul (pA plane) (px pt)) (F32.mul (pB plane) (py pt)))
          (F32.mul (pC plane) (pz pt)))
       (pD plane)).

(** One turn of the loop of [PlanePointRANSACDifferences]. *)
Definition diff_step (plane : Plane) (threshold : F32.t)
    (ret : RANSACDiffs) (pt : Point3f) : RANSACDiffs :=
  let diff := point_plane_diff plane pt in
  if F32.ltb diff threshold
  then {| inliersNum := Int.incr (inliersNum ret);
          distances := distances ret ++ [diff];
          isInliers := isInliers ret ++ [true] |}
  else {| inliersNum := inliersNum ret;
          distances := distances ret ++ [diff];
          isInliers := isInliers ret ++ [false] |}.

Definition PlanePointRANSACDifferences (pts : list Point3f) (plane : Plane)
    (threshold : F32.t) : RANSACDiffs :=
  fold_left (diff_step plane threshold) (visited pts)
    {| inliersNum := 0; distances := []; isInliers := [] |}.

(** The flag the loop pushes for a point. *)
Definition flag_of (plane : Plane) (threshold : F32.t) (pt : Point3f) : bool :=
  F32.ltb (point_plane_diff plane pt) threshold.

(** Number of set flags of a mask. *)
Definition count_true (flags : list bool) : nat := count_occ bool_dec flags true.

(** ** Matrices *)

(** A row of three [float]s and a 3x3 [CV_32F] matrix given by its rows. *)
Definition Vec3 : Type := (F32.t * F32.t * F32.t)%type.
Definition Mat33 : Type := (Vec3 * Vec3 * Vec3)%type.

(** Column [c] of a row, [c] in 0..2. *)
Definition col (c : nat) (v : Vec3) : F32.t :=
  let '(v0, v1, v2) := v in
  match c with
  | O => v0
  | S O => v1
  | _ => v2
  end.

(** Row [r] of a matrix, [r] in 0..2. *)
Definition row (r : nat) (m : Mat33) : Vec3 :=
  let '(r0, r1, r2) := m in
  match r with
  | O => r0
  | S O => r1
  | _ => r2
  end.

(** [m.at<float>(r, c)]. *)
Definition mat_at (m : Mat33) (r c : nat) : F32.t := col c (row r m).

(** A stand-in for OpenCV's matrix product, which is not part of the
    repository: entry [(j, k)] of [X.t() * X] for an n x 3 matrix [X] given
    by its rows is taken to be the product of columns [j] and [k],
    accumulated row after row in [float].  The order and the precision in
    which OpenCV accumulates are its own and may differ from this; no
    property below is about the entries of this matrix. *)
Definition gram_entry (X : list Vec3) (j k : nat) : F32.t :=
  fold_left (fun acc r => F32.add acc (F32.mul (col j r) (col k r))) X F32.zero.

(** [X.t() * X], with the stand-in above for its entries. *)
Definition gram (X : list Vec3) : Mat33 :=
  let e := gram_entry X in
  ((e 0 0, e 0 1, e 0 2), (e 1 0, e 1 1, e 1 2), (e 2 0, e 2 1, e 2 2))%nat.

(** ** Outcomes of a call, and the random source *)

(** The only exception the source can raise is the [std::out_of_range] of
    [vector::at]. *)
Inductive exception : Type := out_of_range.

(** What a call does: it returns, it leaves by an exception, or a loop of it
    is still running when the fuel given to the model is spent. *)
Inductive outcome (A : Type) : Type :=
| Returns (a : A)
| Throws (e : exception)
| Diverges.

Arguments Returns {A} a.
Arguments Throws {A} e.
Arguments Diverges {A}.

(** The process-wide state behind [rand()]: the values it is going to
    return, and how many of them have been consumed. *)
Record rand_state : Type := mkRand { rand_seq : nat -> Z; rand_pos : nat }.

(** Computations that draw from [rand()] and may throw or diverge. *)
Definition M (A : Type) : Type := rand_state -> outcome (A * rand_state).

Definition ret {A : Type} (a : A) : M A := fun g => Returns (a, g).

Definition bind {A B : Type} (m : M A) (k : A -> M B) : M B :=
  fun g =>
    match m g with
    | Returns (a, g') => k a g'
    | Throws e => Throws e
    | Diverges => Diverges
    end.

Definition throw {A : Type} (e : exception) : M A := fun _ => Throws e.

Definition diverge {A : Type} : M A := fun _ => Diverges.

Notation "x <- m ;; k" := (bind m (fun x => k))
  (at level 61, m at next level, right associativity).

(** [rand()]. *)
Definition rand : M Z :=
  fun g => Returns (rand_seq g (rand_pos g),
                    {| rand_seq := rand_seq g; rand_pos := S (rand_pos g) |}).

(** [pts.at(index)] for an [int] index: the index is converted to [size_t],
    so a negative one is out of range as well. *)
Definition vector_at {A : Type} (pts : list A) (index : Z) : M A :=
  if index <? 0 then throw out_of_range
  else match nth_error pts (Z.to_nat index) with
       | Some pt => ret pt
       | None => throw out_of_range
       end.

(** ** The estimators *)

Section Estimators.

(** OpenCV's [eigen(src, eigenvalues, eigenvectors)] on a 3x3 [CV_32F]
    matrix: the eigenvalues and the matrix whose rows are the
    eigenvectors, in the same order. *)
Variable eigen : Mat33 -> Vec3 * Mat33.

(** The C library's [RAND_MAX]. *)
Variable RAND_MAX : Z.

(** What the array [float bestPlane[4]] of [EstimatePlaneRANSAC] holds
    before anything is stored in it. *)
Variable uninitialized : Plane.

(** *** Optimal plane estimation *)

(** The first loop: [t.x += pts.at(idx).x] and so on, in [double]. *)
Definition sum_points (pts : list Point3f) : Point3d :=
  fold_left
    (fun t pt => {| dx := F64.add (dx t) (F64.of_float (px pt));
                    dy := F64.add (dy t) (F64.of_float (py pt));
                    dz := F64.add (dz t) (F64.of_float (pz pt)) |})
    (visited pts)
    {| dx := F64.zero; dy := F64.zero; dz := F64.zero |}.

(** The centre of gravity [t]: the sums divided by [num]. *)
Definition centre_of_gravity (pts : list Point3f) : Point3d :=
  let num := Int.of_size (length pts) in
  let t := sum_points pts in
  {| dx := F64.div (dx t) (F64.of_int num);
     dy := F64.div (dy t) (F64.of_int num);
     dz := F64.div (dz t) (F64.of_int num) |}.

(** The matrix [X]: row [idx] is [pts.at(idx) - t], each difference taken
    in [double] and stored as a [float]. *)
Definition centred (pts : list Point3f) (t : Point3d) : list Vec3 :=
  map (fun pt => (F32.round (F64.sub (F64.of_float (px pt)) (dx t)),
                  F32.round (F64.sub (F64.of_float (py pt)) (dy t)),
                  F32.round (F64.sub (F64.of_float (pz pt)) (dz t))))
      (visited pts).

(** [-(A*t.x + B*t.y + C*t.z)], computed in [double] and stored as a
    [float]. *)
Definition plane_offset (A B C : F32.t) (t : Point3d) : F32.t :=
  F32.round
    (F64.opp
       (F64.add
          (F64.add (F64.mul (F64.of_float A) (dx t))
                   (F64.mul (F64.of_float B) (dy t)))
          (F64.mul (F64.of_float C) (dz t)))).

Definition EstimatePlaneOptimal (pts : list Point3f) : Plane :=
  let t := centre_of_gravity pts in
  let X := centred pts t in
  let mtx := gram X in
  let '(evals, evecs) := eigen mtx in
  let A := mat_at evecs 2 0 in
  let B := mat_at evecs 2 1 in
  let C := mat_at evecs 2 2 in
  {| pA := A; pB := B; pC := C; pD := plane_offset A B C t |}.

(** *** Robust estimation *)

(** [(float)(rand())/RAND_MAX] for a value [r] of [rand()]. *)
Definition rand_unit (r : Z) : F32.t :=
  F32.div (F32.of_int r) (F32.of_int RAND_MAX).

(** [(int)(randN*num)]. *)
Definition rand_index (r : Z) (num : Z) : Z :=
  F32.to_int (F32.mul (rand_unit r) (F32.of_int num)).

(** [while (index2==index1) { rand2=...; index2=(int)(rand2*num); }];
    [fuel] bounds the number of turns the model follows. *)
Fixpoint while_index2 (fuel : nat) (num index1 index2 : Z) : M Z :=
  if index2 =? index1
  then match fuel with
       | O => diverge
       | S fuel' =>
           r <- rand ;;
           while_index2 fuel' num index1 (rand_index r num)
       end
  else ret index2.

(** [while ((index3==index1)||(index3==index2)) { rand3=...; ... }]. *)
Fixpoint while_index3 (fuel : nat) (num index1 index2 index3 : Z) : M Z :=
  if (index3 =? index1) || (index3 =? index2)
  then match fuel with
       | O => diverge
       | S fuel' =>
           r <- rand ;;
           while_index3 fuel' num index1 index2 (rand_index r num)
       end
  else ret index3.

(** The three indices of one trial (source lines 108-124). *)
Definition sample_indices (fuel : nat) (num : Z) : M (Z * Z * Z) :=
  r1 <- rand ;;
  r2 <- rand ;;
  r3 <- rand ;;
  let index1 := rand_index r1 num in
  index2 <- while_index2 fuel num index1 (rand_index r2 num) ;;
  index3 <- while_index3 fuel num index1 index2 (rand_index r3 num) ;;
  ret (index1, index2, index3).

(** The three points of the minimal sample (source lines 126-136). *)
Definition minimal_sample (pts : list Point3f) (idx : Z * Z * Z)
    : M (list Point3f) :=
  let '(index1, index2, index3) := idx in
  pt1 <- vector_at pts index1 ;;
  pt2 <- vector_at pts index2 ;;
  pt3 <- vector_at pts index3 ;;
  ret [pt1; pt2; pt3].

(** The best candidate so far: [bestSampleInlierNum] and [bestPlane]. *)
Record best_state : Type := mkBest {
  bestSampleInlierNum : Z;
  bestPlane : Plane
}.

(** [if (sampleResult.inliersNum>bestSampleInlierNum) { ... }]. *)
Definition update_best (best : best_state) (samplePlane : Plane)
    (sampleInliers : Z) : best_state :=
  if sampleInliers >? bestSampleInlierNum best
  then {| bestSampleInlierNum := sampleInliers; bestPlane := samplePlane |}
  else best.

(** The candidate of one trial and its score: the plane through the
    minimal sample and its number of inliers among all the points. *)
Definition trial_candidate (fuel : nat) (pts : list Point3f)
    (threshold : F32.t) : M (Plane * Z) :=
  idx <- sample_indices fuel (Int.of_size (length pts)) ;;
  minimalSample <- minimal_sample pts idx ;;
  let samplePlane := EstimatePlaneOptimal minimalSample in
  let sampleResult := PlanePointRANSACDifferences pts samplePlane threshold in
  ret (samplePlane, inliersNum sampleResult).

(** One turn of the loop [for (iter = 0; iter < iterateNum; iter++)]. *)
Definition trial (fuel : nat) (pts : list Point3f) (threshold : F32.t)
    (best : best_state) : M best_state :=
  c <- trial_candidate fuel pts threshold ;;
  ret (update_best best (fst c) (snd c)).

(** [iters] turns of the loop. *)
Fixpoint trials (fuel : nat) (pts : list Point3f) (threshold : F32.t)
    (iters : nat) (best : best_state) : M best_state :=
  match iters with
  | O => ret best
  | S iters' =>
      best' <- trial fuel pts threshold best ;;
      trials fuel pts threshold iters' best'
  end.

(** The points whose flag is set (source lines 166-174). *)
Definition inlier_points (pts : list Point3f) (flags : list bool)
    : list Point3f :=
  map fst (filter snd (combine (visited pts) flags)).

Definition EstimatePlaneRANSAC (fuel : nat) (pts : list Point3f)
    (threshold : F32.t) (iterateNum : Z) : M Plane :=
  best <- trials fuel pts threshold (Z.to_nat iterateNum)
            {| bestSampleInlierNum := 0; bestPlane := uninitialized |} ;;
  let bestResult :=
    PlanePointRANSACDifferences pts (bestPlane best) threshold in
  let inlierPts := inlier_points pts (isInliers bestResult) in
  ret (EstimatePlaneOptimal inlierPts).

End Estimators.

(** ** Reading the loop of [EstimatePlaneRANSAC] *)

Section Reading.

Variable eigen : Mat33 -> Vec3 * Mat33.
Variable RAND_MAX : Z.

(** The candidates [iters] turns of the loop go through, in order, each
    with its score. *)
Fixpoint candidates (fuel : nat) (pts : list Point3f) (threshold : F32.t)
    (iters : nat) : M (list (Plane * Z)) :=
  match iters with
  | O => ret []
  | S iters' =>
      c <- trial_candidate eigen RAND_MAX fuel pts threshold ;;
      cs <- candidates fuel pts threshold iters' ;;
      ret (c :: cs)
  end.

(** The index triples [iters] turns of the loop draw, in order. *)
Fixpoint triples (fuel : nat) (num : Z) (iters : nat) : M (list (Z * Z * Z)) :=
  match iters with
  | O => ret []
  | S iters' =>
      idx <- sample_indices RAND_MAX fuel num ;;
      rest <- triples fuel num iters' ;;
      ret (idx :: rest)
  end.

(** A candidate is the optimal plane of three points of the cloud, and
    its score is the inlier count of the whole cloud against it. *)
Definition is_candidate (pts : list Point3f) (threshold : F32.t)
    (c : Plane * Z) : Prop :=
  (exists pt1 pt2 pt3 : Point3f,
      In pt1 pts /\ In pt2 pts /\ In pt3 pts /\
      fst c = EstimatePlaneOptimal eigen [pt1; pt2; pt3]) /\
  snd c = inliersNum (PlanePointRANSACDifferences pts (fst c) threshold).

(** The selection the loop makes among a list of candidates. *)
Definition select_best (cs : list (Plane * Z)) (best : best_state) : best_state :=
  fold_left (fun b c => update_best b (fst c) (snd c)) cs best.

(** The index [(int)(rand*num)] that the [i]-th value of [rand()] gives. *)
Definition drawn_index (num : Z) (g : rand_state) (i : nat) : Z :=
  rand_index RAND_MAX (rand_seq g i) num.

(** Every value [rand()] is still going to return gives an index in
    [0, num). *)
Definition indices_in_range (num : Z) (g : rand_state) : Prop :=
  forall i : nat, (rand_pos g <= i)%nat -> 0 <= drawn_index num g i < num.

(** From every position on, one of the next [fuel] values of [rand()]
    gives an index other than two given ones. *)
Definition indices_vary (fuel : nat) (num : Z) (g : rand_state) : Prop :=
  forall (p : nat) (a b : Z),
    (rand_pos g <= p)%nat ->
    exists q : nat,
      (p <= q < p + fuel)%nat /\
      drawn_index num g q <> a /\ drawn_index num g q <> b.

End Reading.

(** [g'] is [g] after some more calls of [rand()]. *)
Definition later (g g' : rand_state) : Prop :=
  rand_seq g' = rand_seq g /\ (rand_pos g <= rand_pos g')%nat.

(** Two states of the generator from which [rand()] returns the same
    values. *)
Definition same_future (g1 g2 : rand_state) : Prop :=
  forall i : nat,
    rand_seq g1 (rand_pos g1 + i)%nat = rand_seq g2 (rand_pos g2 + i)%nat.

(** Two runs that end alike: with the same value and as many values of
    [rand()] consumed, with the same exception, or not at all. *)
Definition same_outcome {A : Type} (g1 g2 : rand_state)
    (o1 o2 : outcome (A * rand_state)) : Prop :=
  match o1, o2 with
  | Returns (a1, g1'), Returns (a2, g2') =>
      a1 = a2 /\
      (rand_pos g1' + rand_pos g2 = rand_pos g2' + rand_pos g1)%nat /\
      same_future g1' g2'
  | Throws e1, Throws e2 => e1 = e2
  | Diverges, Diverges => True
  | _, _ => False
  end.

(** A computation whose outcome depends on the generator only through the
    values [rand()] returns from its start on. *)
Definition respects_future {A : Type} (m : M A) : Prop :=
  forall g1 g2 : rand_state,
    same_future g1 g2 -> same_outcome g1 g2 (m g1) (m g2).

(** ** Concrete data for the examples *)

Module Examples.

(** A point with integer coordinates. *)
Definition pt (x y z : Z) : Point3f :=
  {| px := F32.of_int x; py := F32.of_int y; pz := F32.of_int z |}.

(** The unit square in the plane [z = 0] and one point far above it. *)
Definition square_and_outlier : list Point3f :=
  [pt 0 0 0; pt 1 0 0; pt 0 1 0; pt 1 1 0; pt 0 0 10].

(** The plane [z = 0]. *)
Definition plane_z0 : Plane :=
  {| pA := F32.zero; pB := F32.zero; pC := F32.of_int 1; pD := F32.zero |}.

(** The thresholds 1/2 and 10. *)
Definition half : F32.t := F32.div (F32.of_int 1) (F32.of_int 2).
Definition ten : F32.t := F32.of_int 10.

(** Two points only. *)
Definition two_points : list Point3f := [pt 0 0 0; pt 1 0 0].

(** [RAND_MAX] of the GNU C library. *)
Definition RAND_MAX_glibc : Z := 2147483647.

(** A stand-in for [eigen] that answers every matrix with the coordinate
    axes; the last row is the axis [z]. *)
Definition eigen_axes (m : Mat33) : Vec3 * Mat33 :=
  let o := F32.of_int 1 in
  let z := F32.zero in
  ((z, z, z), ((o, z, z), (z, o, z), (z, z, o))).

(** Some content for the array [bestPlane] before the loop. *)
Definition stale : Plane :=
  {| pA := F32.of_int 1; pB := F32.zero; pC := F32.zero; pD := F32.zero |}.

(** A generator about to return the values of [l] again and again. *)
Definition cycle (l : list Z) : rand_state :=
  {| rand_seq := fun i => nth (i mod length l) l 0; rand_pos := 0 |}.

(** With five points these values give the indices 0, 2, 3, 1, 4, 2. *)
Definition varied : rand_state :=
  cycle [0; 1073741823; 1610612736; 536870912; 2013265920; 1073741823].

(** [rand()] returns [RAND_MAX] first. *)
Definition top_first : rand_state :=
  cycle [2147483647; 0; 1073741823].

(** [rand()] returns 0 for ever. *)
Definition zeros : rand_state := cycle [0].

(** The generator [varied] after three and after six calls of [rand()]. *)
Definition varied_after_3 : rand_state :=
  {| rand_seq := rand_seq varied; rand_pos := 3 |}.
Definition varied_after_6 : rand_state :=
  {| rand_seq := rand_seq varied; rand_pos := 6 |}.

End Examples.

(** ** The driver *)

(** What [findDifferences] writes with [printf]: the four parameters of the
    plane fitted to the whole data, and those of the robust fit. *)
Inductive printed : Type :=
| WholeDataFit (plane : Plane)
| RANSACFit (plane : Plane).

Section Driver.

Variable eigen : Mat33 -> Vec3 * Mat33.
Variable RAND_MAX : Z.
Variable uninitialized : Plane.

(** [findDifferences]: the plane of the whole data is fitted, printed and
    freed; the robust plane is estimated and printed; the differences to
    the robust plane are returned.  The value carries what a call that
    returns has printed, in order. *)
Definition findDifferences (fuel : nat) (points : list Point3f)
    (threshold : F32.t) (iter : Z) : M (list printed * RANSACDiffs) :=
  let plane := EstimatePlaneOptimal eigen points in
  planeParams <-
    EstimatePlaneRANSAC eigen RAND_MAX uninitialized fuel points threshold iter ;;
  let differences :=
    PlanePointRANSACDifferences points planeParams threshold in
  ret ([WholeDataFit plane; RANSACFit planeParams], differences).

End Driver.

(** ** Notions for the further properties *)

(** One turn of the summing loop of [EstimatePlaneOptimal]. *)
Definition sum_step (t : Point3d) (pt : Point3f) : Point3d :=
  {| dx := F64.add (dx t) (F64.of_float (px pt));
     dy := F64.add (dy t) (F64.of_float (py pt));
     dz := F64.add (dz t) (F64.of_float (pz pt)) |}.

(** The NaN of either format. *)
Definition nan : spec_float := S754_nan.

(** A point one of whose coordinates is a NaN. *)
Definition has_nan (pt : Point3f) : Prop :=
  px pt = nan \/ py pt = nan \/ pz pt = nan.

(** The same plane with the opposite normal: all four parameters negated. *)
Definition flip (plane : Plane) : Plane :=
  {| pA := F32.opp (pA plane); pB := F32.opp (pB plane);
     pC := F32.opp (pC plane); pD := F32.opp (pD plane) |}.

(** A zero of either sign. *)
Definition is_zero (x : spec_float) : Prop :=
  match x with
  | S754_zero _ => True
  | _ => False
  end.

(** Two numbers that are opposite, the two zeros counting as opposite to
    each other and to themselves. *)
Definition opposite (x y : spec_float) : Prop :=
  y = SFopp x \/ (is_zero x /\ is_zero y).

(** Two runs that end alike whatever their values: both return, with as
    many values of [rand()] consumed and the same values to come, both
    leave by the same exception, or both do not end. *)
Definition ends_alike {A B : Type} (g1 g2 : rand_state)
    (o1 : outcome (A * rand_state)) (o2 : outcome (B * rand_state)) : Prop :=
  match o1, o2 with
  | Returns (_, g1'), Returns (_, g2') =>
      (rand_pos g1' + rand_pos g2 = rand_pos g2' + rand_pos g1)%nat /\
      same_future g1' g2'
  | Throws e1, Throws e2 => e1 = e2
  | Diverges, Diverges => True
  | _, _ => False
  end.

(** The best score and the best plane belong together: the score is
    between 0 and the number of points, and when it is positive it is the
    inlier count of the cloud against the plane. *)
Definition in_sync (pts : list Point3f) (threshold : F32.t)
    (best : best_state) : Prop :=
  0 <= bestSampleInlierNum best <= Z.of_nat (length pts) /\
  (0 < bestSampleInlierNum best ->
   bestSampleInlierNum best
   = inliersNum (PlanePointRANSACDifferences pts (bestPlane best) threshold)).

(** Data for the examples of the further properties. *)
Module MoreExamples.

(** A cloud with one point the sensor could not measure. *)
Definition with_hole : list Point3f :=
  [Examples.pt 0 0 0;
   {| px := nan; py := F32.of_int 1; pz := F32.zero |};
   Examples.pt 1 1 0].

(** The plane [x + y - 1 = 0], not normalised. *)
Definition diagonal : Plane :=
  {| pA := F32.of_int 1; pB := F32.of_int 1; pC := F32.zero;
     pD := F32.of_int (-1) |}.

(** The five points of the example with the third one not measured. *)
Definition holed : list Point3f :=
  [Examples.pt 0 0 0; Examples.pt 1 0 0;
   {| px := nan; py := F32.of_int 1; pz := F32.zero |};
   Examples.pt 1 1 0; Examples.pt 0 0 10].

(** Three points of the plane [z = 0] and three of the plane [z = 10]. *)
Definition two_levels : list Point3f :=
  [Examples.pt 0 0 0; Examples.pt 1 0 0; Examples.pt 0 1 0;
   Examples.pt 0 0 10; Examples.pt 1 0 10; Examples.pt 0 1 10].

(** With six points these values give the indices 0, 1, 2, 3, 4, 5. *)
Definition levels : rand_state :=
  Examples.cycle
    [0; 536870912; 805306368; 1073741823; 1610612736; 1879048192].

(** The generator [levels] after three and after six calls of [rand()]. *)
Definition levels_after_3 : rand_state :=
  {| rand_seq := rand_seq levels; rand_pos := 3 |}.
Definition levels_after_6 : rand_state :=
  {| rand_seq := rand_seq levels; rand_pos := 6 |}.

(** The planes [z = 0] and [z = 10] as the fitter returns them. *)
Definition level_0 : Plane :=
  {| pA := F32.zero; pB := F32.zero; pC := F32.of_int 1;
     pD := S754_zero true |}.
Definition level_10 : Plane :=
  {| pA := F32.zero; pB := F32.zero; pC := F32.of_int 1;
     pD := F32.of_int (-10) |}.

End MoreExamples.

(** * Properties *)

(** ** Machine integers and visited points *)

Lemma wrap_in_range (z : Z) : Int.in_range z -> Int.wrap z = z.
Proof.
  unfold Int.in_range, Int.wrap, Int.INT_MIN, Int.INT_MAX. intros H.
  rewrite Z.mod_small; lia.
Qed.

Lemma of_size_fits {A : Type} (pts : list A) :
  fits_int pts -> Int.of_size (length pts) = Z.of_nat (length pts).
Proof.
  unfold fits_int, Int.of_size. intros H. apply wrap_in_range.
  unfold Int.in_range, Int.INT_MIN, Int.INT_MAX in *. lia.
Qed.

Lemma visited_fits {A : Type} (pts : list A) : fits_int pts -> visited pts = pts.
Proof.
  intros H. unfold visited. rewrite (of_size_fits pts H), Nat2Z.id.
  apply firstn_all.
Qed.

Lemma visited_length_le {A : Type} (pts : list A) :
  (length (visited pts) <= length pts)%nat.
Proof. unfold visited. rewrite length_firstn. lia. Qed.

Lemma visited_fits_int {A : Type} (pts : list A) :
  Z.of_nat (length (visited pts)) <= Int.INT_MAX.
Proof.
  unfold visited. rewrite length_firstn.
  assert (H : Int.of_size (length pts) <= Int.INT_MAX).
  { unfold Int.of_size, Int.wrap, Int.INT_MAX.
    pose proof (Z.mod_pos_bound (Z.of_nat (length pts) + 2147483648) 4294967296).
    lia. }
  unfold Int.INT_MAX in *. lia.
Qed.

(** ** The classifier, turn by turn *)

Lemma count_true_app (l1 l2 : list bool) :
  count_true (l1 ++ l2) = (count_true l1 + count_true l2)%nat.
Proof. unfold count_true. apply count_occ_app. Qed.

Lemma count_true_le_length (l : list bool) : (count_true l <= length l)%nat.
Proof. unfold count_true. apply count_occ_bound. Qed.

Lemma diff_loop_distances (plane : Plane) (threshold : F32.t)
    (l : list Point3f) (acc : RANSACDiffs) :
  distances (fold_left (diff_step plane threshold) l acc)
  = distances acc ++ map (point_plane_diff plane) l.
Proof.
  revert acc. induction l as [| pt l IH]; intros acc; simpl.
  - now rewrite app_nil_r.
  - rewrite IH. unfold diff_step.
    destruct (F32.ltb _ _); simpl; now rewrite <- app_assoc.
Qed.

Lemma diff_loop_isInliers (plane : Plane) (threshold : F32.t)
    (l : list Point3f) (acc : RANSACDiffs) :
  isInliers (fold_left (diff_step plane threshold) l acc)
  = isInliers acc ++ map (flag_of plane threshold) l.
Proof.
  revert acc. induction l as [| pt l IH]; intros acc; simpl.
  - now rewrite app_nil_r.
  - rewrite IH. unfold diff_step, flag_of.
    destruct (F32.ltb _ _); simpl; now rewrite <- app_assoc.
Qed.

(** The counter never overflows: it stays below the number of points. *)
Lemma diff_loop_inliersNum (plane : Plane) (threshold : F32.t)
    (l : list Point3f) (acc : RANSACDiffs) :
  0 <= inliersNum acc ->
  inliersNum acc + Z.of_nat (length l) <= Int.INT_MAX ->
  inliersNum (fold_left (diff_step plane threshold) l acc)
  = inliersNum acc + Z.of_nat (count_true (map (flag_of plane threshold) l)).
Proof.
  unfold Int.INT_MAX.
  revert acc. induction l as [| pt l IH]; intros acc H0 Hmax.
  - cbn. lia.
  - cbn [fold_left map length] in *.
    assert (Hstep : inliersNum (diff_step plane threshold acc pt)
                    = inliersNum acc
                      + Z.of_nat (count_true [flag_of plane threshold pt])).
    { unfold diff_step, flag_of.
      destruct (F32.ltb (point_plane_diff plane pt) threshold); cbn.
      - unfold Int.incr. apply wrap_in_range.
        unfold Int.in_range, Int.INT_MIN, Int.INT_MAX. lia.
      - lia. }
    pose proof (count_true_le_length [flag_of plane threshold pt]) as Hle.
    cbn [length] in Hle.
    rewrite IH by lia.
    change (flag_of plane threshold pt :: map (flag_of plane threshold) l)
      with ([flag_of plane threshold pt] ++ map (flag_of plane threshold) l).
    rewrite count_true_app, Hstep. lia.
Qed.

Lemma classifier_distances (pts : list Point3f) (plane : Plane) (threshold : F32.t) :
  distances (PlanePointRANSACDifferences pts plane threshold)
  = map (point_plane_diff plane) (visited pts).
Proof. unfold PlanePointRANSACDifferences. now rewrite diff_loop_distances. Qed.

Lemma classifier_isInliers (pts : list Point3f) (plane : Plane) (threshold : F32.t) :
  isInliers (PlanePointRANSACDifferences pts plane threshold)
  = map (flag_of plane threshold) (visited pts).
Proof. unfold PlanePointRANSACDifferences. now rewrite diff_loop_isInliers. Qed.

Lemma classifier_inliersNum (pts : list Point3f) (plane : Plane) (threshold : F32.t) :
  inliersNum (PlanePointRANSACDifferences pts plane threshold)
  = Z.of_nat (count_true (isInliers (PlanePointRANSACDifferences pts plane threshold))).
Proof.
  rewrite classifier_isInliers. unfold PlanePointRANSACDifferences.
  rewrite diff_loop_inliersNum; simpl; try lia.
  apply visited_fits_int.
Qed.

(** ** Comparisons of floating-point numbers *)

(** Equal to the threshold is not below it. *)
Lemma ltb_false_of_eqb (x y : F32.t) : F32.eqb x y = true -> F32.ltb x y = false.
Proof.
  unfold F32.eqb, F32.ltb, SFeqb, SFltb.
  destruct (SFcompare x y) as [[ | | ] | ]; congruence.
Qed.

(** Case analysis on the integer and mantissa comparisons [SFcompare]
    makes for two finite numbers. *)
Ltac split_compares :=
  change (Pos.compare_cont Eq) with Pos.compare;
  repeat match goal with
         | |- context [Z.compare ?a ?b] => destruct (Z.compare_spec a b)
         | |- context [Pos.compare ?a ?b] => destruct (Pos.compare_spec a b)
         end;
  cbn; intros; subst; try reflexivity; try discriminate; try lia.

(** [x < y] and [y <= z] give [x < z], NaNs included: a comparison with a
    NaN is false. *)
Lemma ltb_leb_trans (x y z : F32.t) :
  F32.ltb x y = true -> F32.leb y z = true -> F32.ltb x z = true.
Proof.
  unfold F32.ltb, F32.leb, SFltb, SFleb.
  destruct x as [sx | sx | | sx mx ex], y as [sy | sy | | sy my ey],
    z as [sz | sz | | sz mz ez]; cbn;
    try destruct sx; try destruct sy; try destruct sz; cbn;
    try congruence; split_compares.
Qed.

(** A distance is never below a threshold that is zero or negative. *)
Lemma ltb_abs_nonpositive (x threshold : F32.t) :
  F32.leb threshold F32.zero = true -> F32.ltb (F32.abs x) threshold = false.
Proof.
  unfold F32.ltb, F32.leb, F32.abs, F32.zero, SFltb, SFleb.
  destruct x as [sx | sx | | sx mx ex],
    threshold as [st | st | | st mt et]; cbn;
    try destruct sx; try destruct st; cbn; congruence.
Qed.

(** ** The classifier *)

(** C2. For a cloud whose size fits an [int], the classifier returns
    distances and flags of the cloud's length; at every index [i] the
    distance is [|A*x_i + B*y_i + C*z_i + D|] (in [float] arithmetic), the
    flag is the strict comparison of that distance with the threshold (so a
    distance equal to the threshold gives [false]); and the inlier count is
    the number of [true] flags. *)
Theorem PlanePointRANSACDifferences_classifies
    (pts : list Point3f) (plane : Plane) (threshold : F32.t) :
  fits_int pts ->
  let ret := PlanePointRANSACDifferences pts plane threshold in
  length (distances ret) = length pts /\
  length (isInliers ret) = length pts /\
  (forall (i : nat) (pt : Point3f),
      nth_error pts i = Some pt ->
      let d :=
        F32.abs
          (F32.add
             (F32.add
                (F32.add (F32.mul (pA plane) (px pt))
                         (F32.mul (pB plane) (py pt)))
                (F32.mul (pC plane) (pz pt)))
             (pD plane)) in
      nth_error (distances ret) i = Some d /\
      nth_error (isInliers ret) i = Some (F32.ltb d threshold) /\
      (F32.eqb d threshold = true -> nth_error (isInliers ret) i = Some false)) /\
  inliersNum ret = Z.of_nat (count_true (isInliers ret)).
Proof.
  intros Hfit ret. subst ret.
  rewrite classifier_inliersNum, classifier_distances, classifier_isInliers,
    (visited_fits pts Hfit), !length_map.
  split; [reflexivity |]. split; [reflexivity |]. split; [| reflexivity].
  intros i pt Hpt d. subst d. rewrite !nth_error_map, Hpt. cbn [option_map].
  split; [reflexivity |]. split; [reflexivity |].
  intros Heq. unfold flag_of, point_plane_diff.
  now rewrite (ltb_false_of_eqb _ _ Heq).
Qed.

Lemma PlanePointRANSACDifferences_classifies_witness :
  fits_int Examples.square_and_outlier /\
  inliersNum (PlanePointRANSACDifferences Examples.square_and_outlier
                Examples.plane_z0 Examples.half)
  = Z.of_nat (count_true
                (isInliers (PlanePointRANSACDifferences
                              Examples.square_and_outlier
                              Examples.plane_z0 Examples.half))).
Proof.
  assert (Hfit : fits_int Examples.square_and_outlier)
    by (unfold fits_int, Int.INT_MAX; simpl; lia).
  split; [exact Hfit |].
  apply (PlanePointRANSACDifferences_classifies
           Examples.square_and_outlier Examples.plane_z0 Examples.half Hfit).
Defined.

(** The fifth point is at distance exactly 10 from [z = 0]: at the threshold
    10 it is an outlier, the four points of the square are inliers. *)
Example classifier_boundary_run :
  PlanePointRANSACDifferences Examples.square_and_outlier Examples.plane_z0
    Examples.ten
  = {| inliersNum := 4;
       distances := [F32.zero; F32.zero; F32.zero; F32.zero; Examples.ten];
       isInliers := [true; true; true; true; false] |}.
Proof. vm_compute. reflexivity. Qed.

(** ** Monotonicity in the threshold *)

Lemma count_true_map_le {A : Type} (f g : A -> bool) (l : list A) :
  (forall a, f a = true -> g a = true) ->
  (count_true (map f l) <= count_true (map g l))%nat.
Proof.
  intros Hfg. unfold count_true.
  induction l as [| a l IH]; cbn; [lia |].
  specialize (Hfg a).
  destruct (f a), (g a); cbn; try lia.
Qed.

Lemma count_true_all_false {A : Type} (f : A -> bool) (l : list A) :
  (forall a, f a = false) -> count_true (map f l) = 0%nat.
Proof.
  intros Hf. unfold count_true.
  induction l as [| a l IH]; cbn; [reflexivity |].
  rewrite (Hf a). cbn. exact IH.
Qed.

(** C9. Raising the threshold keeps every inlier: for [t1 <= t2], a flag set
    at [t1] is set at [t2] and the inlier count does not decrease; and a
    threshold that is zero or negative gives a mask of [false] only and the
    count 0. *)
Theorem PlanePointRANSACDifferences_monotone
    (pts : list Point3f) (plane : Plane) (t1 t2 : F32.t) :
  F32.leb t1 t2 = true ->
  let r1 := PlanePointRANSACDifferences pts plane t1 in
  let r2 := PlanePointRANSACDifferences pts plane t2 in
  (forall i : nat,
      nth_error (isInliers r1) i = Some true ->
      nth_error (isInliers r2) i = Some true) /\
  inliersNum r1 <= inliersNum r2 /\
  (F32.leb t1 F32.zero = true ->
   Forall (fun flag => flag = false) (isInliers r1) /\ inliersNum r1 = 0).
Proof.
  intros Hle r1 r2. subst r1 r2.
  assert (Hmono : forall pt, flag_of plane t1 pt = true -> flag_of plane t2 pt = true).
  { intros pt H1. unfold flag_of in *. now apply ltb_leb_trans with t1. }
  rewrite !classifier_inliersNum, !classifier_isInliers.
  split; [| split].
  - intros i. rewrite !nth_error_map.
    destruct (nth_error (visited pts) i) as [pt |]; cbn; [| discriminate].
    intros [= H1]. now rewrite (Hmono pt H1).
  - apply inj_le. now apply count_true_map_le.
  - intros Hneg.
    assert (Hnone : forall pt, flag_of plane t1 pt = false).
    { intros pt. unfold flag_of, point_plane_diff.
      now apply ltb_abs_nonpositive. }
    split.
    + apply Forall_forall. intros flag Hin.
      apply in_map_iff in Hin. destruct Hin as (pt & <- & _). apply Hnone.
    + now rewrite count_true_all_false.
Qed.

Lemma PlanePointRANSACDifferences_monotone_witness :
  F32.leb (F32.opp Examples.half) Examples.ten = true /\
  inliersNum (PlanePointRANSACDifferences Examples.square_and_outlier
                Examples.plane_z0 (F32.opp Examples.half))
  <= inliersNum (PlanePointRANSACDifferences Examples.square_and_outlier
                   Examples.plane_z0 Examples.ten).
Proof.
  assert (Hle : F32.leb (F32.opp Examples.half) Examples.ten = true)
    by (vm_compute; reflexivity).
  split; [exact Hle |].
  apply (PlanePointRANSACDifferences_monotone
           Examples.square_and_outlier Examples.plane_z0
           (F32.opp Examples.half) Examples.ten Hle).
Defined.

(** ** Runs of the monad *)

Lemma bind_returns {A B : Type} (m : M A) (k : A -> M B) (g g' : rand_state) (b : B) :
  bind m k g = Returns (b, g') ->
  exists (a : A) (g1 : rand_state), m g = Returns (a, g1) /\ k a g1 = Returns (b, g').
Proof.
  unfold bind. destruct (m g) as [[a g1] | e |]; try discriminate.
  intros H. now exists a, g1.
Qed.

Lemma bind_of_returns {A B : Type} (m : M A) (k : A -> M B) (g g1 : rand_state) (a : A) :
  m g = Returns (a, g1) -> bind m k g = k a g1.
Proof. unfold bind. now intros ->. Qed.

Lemma bind_of_diverges {A B : Type} (m : M A) (k : A -> M B) (g : rand_state) :
  m g = Diverges -> bind m k g = Diverges.
Proof. unfold bind. now intros ->. Qed.

Lemma bind_of_throws {A B : Type} (m : M A) (k : A -> M B) (g : rand_state) (e : exception) :
  m g = Throws e -> bind m k g = Throws e.
Proof. unfold bind. now intros ->. Qed.

(** ** Selection of the best candidate *)

Section Selection.

Variable eigen : Mat33 -> Vec3 * Mat33.
Variable RAND_MAX : Z.

(** The loop is the selection among the candidates it goes through. *)
Lemma trials_select (fuel : nat) (pts : list Point3f) (threshold : F32.t)
    (iters : nat) (best : best_state) (g : rand_state) :
  trials eigen RAND_MAX fuel pts threshold iters best g
  = match candidates eigen RAND_MAX fuel pts threshold iters g with
    | Returns (cs, g') => Returns (select_best cs best, g')
    | Throws e => Throws e
    | Diverges => Diverges
    end.
Proof.
  revert best g. induction iters as [| iters IH]; intros best g.
  - reflexivity.
  - cbn [trials candidates]. unfold trial, bind, ret.
    destruct (trial_candidate eigen RAND_MAX fuel pts threshold g)
      as [[c g1] | e |]; try reflexivity.
    rewrite IH.
    destruct (candidates eigen RAND_MAX fuel pts threshold iters g1)
      as [[cs g2] | e |]; reflexivity.
Qed.

Lemma candidates_length (fuel : nat) (pts : list Point3f) (threshold : F32.t)
    (iters : nat) (g g' : rand_state) (cs : list (Plane * Z)) :
  candidates eigen RAND_MAX fuel pts threshold iters g = Returns (cs, g') ->
  length cs = iters.
Proof.
  revert g cs. induction iters as [| iters IH]; intros g cs; cbn [candidates].
  - intros [= <- _]. reflexivity.
  - intros H. apply bind_returns in H. destruct H as (c & g1 & _ & H).
    apply bind_returns in H. destruct H as (cs' & g2 & Hcs & H).
    unfold ret in H. injection H as Hc Hg. subst cs g'.
    cbn. f_equal. eapply IH, Hcs.
Qed.

End Selection.

Lemma vector_at_returns {A : Type} (pts : list A) (index : Z) (g g' : rand_state) (pt : A) :
  vector_at pts index g = Returns (pt, g') ->
  g' = g /\ 0 <= index < Z.of_nat (length pts) /\
  nth_error pts (Z.to_nat index) = Some pt.
Proof.
  unfold vector_at. destruct (Z.ltb_spec index 0); [discriminate |].
  destruct (nth_error pts (Z.to_nat index)) as [pt' |] eqn:E; [| discriminate].
  unfold ret. intros [= <- <-].
  assert (Hlt : (Z.to_nat index < length pts)%nat)
    by (apply nth_error_Some; congruence).
  repeat split; auto; lia.
Qed.

Lemma vector_at_in_range {A : Type} (pts : list A) (index : Z) (g : rand_state) :
  0 <= index < Z.of_nat (length pts) ->
  exists pt : A, vector_at pts index g = Returns (pt, g).
Proof.
  intros H. unfold vector_at. destruct (Z.ltb_spec index 0); [lia |].
  destruct (nth_error pts (Z.to_nat index)) as [pt |] eqn:E.
  - now exists pt.
  - apply nth_error_None in E. lia.
Qed.

Section Candidates.

Variable eigen : Mat33 -> Vec3 * Mat33.
Variable RAND_MAX : Z.

Lemma minimal_sample_returns (pts : list Point3f) (idx : Z * Z * Z)
    (g g' : rand_state) (sample : list Point3f) :
  minimal_sample pts idx g = Returns (sample, g') ->
  g' = g /\
  exists pt1 pt2 pt3 : Point3f,
    sample = [pt1; pt2; pt3] /\ In pt1 pts /\ In pt2 pts /\ In pt3 pts.
Proof.
  destruct idx as [[index1 index2] index3]. unfold minimal_sample. intros H.
  apply bind_returns in H. destruct H as (pt1 & g1 & H1 & H).
  apply bind_returns in H. destruct H as (pt2 & g2 & H2 & H).
  apply bind_returns in H. destruct H as (pt3 & g3 & H3 & H).
  unfold ret in H. injection H as <- <-.
  apply vector_at_returns in H1, H2, H3.
  destruct H1 as (-> & _ & H1), H2 as (-> & _ & H2), H3 as (-> & _ & H3).
  split; [reflexivity |].
  exists pt1, pt2, pt3. repeat split; eauto using nth_error_In.
Qed.

Lemma trial_candidate_returns (fuel : nat) (pts : list Point3f)
    (threshold : F32.t) (g g' : rand_state) (c : Plane * Z) :
  trial_candidate eigen RAND_MAX fuel pts threshold g = Returns (c, g') ->
  is_candidate eigen pts threshold c.
Proof.
  unfold trial_candidate. intros H.
  apply bind_returns in H. destruct H as (idx & g1 & _ & H).
  apply bind_returns in H. destruct H as (sample & g2 & Hs & H).
  unfold ret in H. injection H as <- <-.
  apply minimal_sample_returns in Hs.
  destruct Hs as (_ & pt1 & pt2 & pt3 & -> & Hin).
  split; cbn [fst snd]; [| reflexivity].
  exists pt1, pt2, pt3. tauto.
Qed.

Lemma candidates_are_candidates (fuel : nat) (pts : list Point3f)
    (threshold : F32.t) (iters : nat) (g g' : rand_state)
    (cs : list (Plane * Z)) :
  candidates eigen RAND_MAX fuel pts threshold iters g = Returns (cs, g') ->
  Forall (is_candidate eigen pts threshold) cs.
Proof.
  revert g cs. induction iters as [| iters IH]; intros g cs; cbn [candidates].
  - unfold ret. intros [= <- _]. constructor.
  - intros H. apply bind_returns in H. destruct H as (c & g1 & Hc & H).
    apply bind_returns in H. destruct H as (cs' & g2 & Hcs & H).
    unfold ret in H. injection H as Hl Hg. subst cs g'.
    constructor.
    + eapply trial_candidate_returns, Hc.
    + eapply IH, Hcs.
Qed.

End Candidates.

(** The selection keeps the first candidate of the greatest score, if that
    score exceeds the one it started from. *)
Lemma select_best_first_maximum (cs : list (Plane * Z)) (best : best_state) :
  (select_best cs best = best /\
   forall c, In c cs -> snd c <= bestSampleInlierNum best)
  \/
  (exists (pre : list (Plane * Z)) (c : Plane * Z) (post : list (Plane * Z)),
      cs = pre ++ c :: post /\
      select_best cs best
      = {| bestSampleInlierNum := snd c; bestPlane := fst c |} /\
      bestSampleInlierNum best < snd c /\
      (forall c', In c' pre -> snd c' < snd c) /\
      (forall c', In c' post -> snd c' <= snd c)).
Proof.
  revert best. induction cs as [| c0 cs IH]; intros best.
  - left. split; [reflexivity | intros c []].
  - assert (Hstep : select_best (c0 :: cs) best
                    = select_best cs (update_best best (fst c0) (snd c0)))
      by reflexivity.
    rewrite Hstep. clear Hstep. unfold update_best.
    rewrite Z.gtb_ltb. destruct (Z.ltb_spec (bestSampleInlierNum best) (snd c0)) as [Hgt | Hle].
    + destruct (IH {| bestSampleInlierNum := snd c0; bestPlane := fst c0 |})
        as [(Heq & Hall) | (pre & c & post & -> & Heq & Hlt & Hpre & Hpost)].
      * right. exists [], c0, cs. cbn in *. repeat split; auto. intros c' [].
      * right. exists (c0 :: pre), c, post. cbn in *.
        repeat split; auto; try lia.
        intros c' [<- | Hin]; [lia | auto].
    + destruct (IH best)
        as [(Heq & Hall) | (pre & c & post & -> & Heq & Hlt & Hpre & Hpost)].
      * left. split; [exact Heq |]. intros c [<- | Hin]; [lia | auto].
      * right. exists (c0 :: pre), c, post. cbn in *.
        repeat split; auto.
        intros c' [<- | Hin]; [lia | auto].
Qed.

(** C4. When the loop of [iters] trials returns, it has gone through [iters]
    candidates; each is the optimal plane of three points of the cloud,
    scored by the inlier count of the whole cloud against it at the caller's
    threshold; and the best candidate it ends with is the one it started
    from when no score exceeds the starting one, and otherwise the first
    candidate of the greatest score: every earlier score is strictly lower
    (a later equal score does not replace it) and no later one is higher. *)
Theorem trials_keep_first_best
    (eigen : Mat33 -> Vec3 * Mat33) (RAND_MAX : Z) (fuel : nat)
    (pts : list Point3f) (threshold : F32.t) (iters : nat)
    (best best' : best_state) (g g' : rand_state) :
  trials eigen RAND_MAX fuel pts threshold iters best g = Returns (best', g') ->
  exists cs : list (Plane * Z),
    candidates eigen RAND_MAX fuel pts threshold iters g = Returns (cs, g') /\
    length cs = iters /\
    Forall (is_candidate eigen pts threshold) cs /\
    best' = select_best cs best /\
    ((best' = best /\
      forall c, In c cs -> snd c <= bestSampleInlierNum best)
     \/
     (exists (pre : list (Plane * Z)) (c : Plane * Z) (post : list (Plane * Z)),
         cs = pre ++ c :: post /\
         best' = {| bestSampleInlierNum := snd c; bestPlane := fst c |} /\
         bestSampleInlierNum best < snd c /\
         (forall c', In c' pre -> snd c' < snd c) /\
         (forall c', In c' post -> snd c' <= snd c))).
Proof.
  rewrite trials_select.
  destruct (candidates eigen RAND_MAX fuel pts threshold iters g)
    as [[cs g1] | e |] eqn:Hcs; try discriminate.
  intros [= <- <-]. exists cs.
  split; [reflexivity |].
  split; [eapply candidates_length, Hcs |].
  split; [eapply candidates_are_candidates, Hcs |].
  split; [reflexivity |].
  apply select_best_first_maximum.
Qed.

Lemma trials_keep_first_best_witness :
  let best0 := {| bestSampleInlierNum := 0; bestPlane := Examples.stale |} in
  let best4 :=
    {| bestSampleInlierNum := 4;
       bestPlane := {| pA := F32.zero; pB := F32.zero; pC := F32.of_int 1;
                       pD := S754_zero true |} |} in
  let g12 := {| rand_seq := rand_seq Examples.varied; rand_pos := 12 |} in
  trials Examples.eigen_axes Examples.RAND_MAX_glibc 10
    Examples.square_and_outlier Examples.half 4 best0 Examples.varied
  = Returns (best4, g12) /\
  exists cs : list (Plane * Z),
    candidates Examples.eigen_axes Examples.RAND_MAX_glibc 10
      Examples.square_and_outlier Examples.half 4 Examples.varied
    = Returns (cs, g12) /\
    best4 = select_best cs best0.
Proof.
  intros best0 best4 g12.
  assert (Hrun : trials Examples.eigen_axes Examples.RAND_MAX_glibc 10
                   Examples.square_and_outlier Examples.half 4 best0
                   Examples.varied
                 = Returns (best4, g12))
    by (vm_compute; reflexivity).
  split; [exact Hrun |].
  destruct (trials_keep_first_best _ _ _ _ _ _ _ _ _ _ Hrun)
    as (cs & Hcs & _ & _ & Hsel & _).
  exists cs. split; assumption.
Defined.

(** ** The index loops *)

Lemma later_refl (g : rand_state) : later g g.
Proof. split; [reflexivity | lia]. Qed.

Lemma later_trans (g1 g2 g3 : rand_state) : later g1 g2 -> later g2 g3 -> later g1 g3.
Proof. unfold later. intros [E1 L1] [E2 L2]. split; [congruence | lia]. Qed.

Lemma rand_returns (g : rand_state) :
  rand g = Returns (rand_seq g (rand_pos g),
                    {| rand_seq := rand_seq g; rand_pos := S (rand_pos g) |}).
Proof. reflexivity. Qed.

Section Sampling.

Variable RAND_MAX : Z.

Lemma drawn_index_later (num : Z) (g g' : rand_state) (i : nat) :
  later g g' -> drawn_index RAND_MAX num g' i = drawn_index RAND_MAX num g i.
Proof. unfold drawn_index. now intros [-> _]. Qed.

Lemma indices_in_range_later (num : Z) (g g' : rand_state) :
  later g g' -> indices_in_range RAND_MAX num g -> indices_in_range RAND_MAX num g'.
Proof.
  intros Hl Hr i Hi. rewrite (drawn_index_later num g g' i Hl).
  apply Hr. destruct Hl. lia.
Qed.

Lemma indices_vary_later (fuel : nat) (num : Z) (g g' : rand_state) :
  later g g' -> indices_vary RAND_MAX fuel num g -> indices_vary RAND_MAX fuel num g'.
Proof.
  intros Hl Hv p a b Hp.
  destruct (Hv p a b) as (q & Hq & Ha & Hb); [destruct Hl; lia |].
  exists q. now rewrite !(drawn_index_later num g g' q Hl).
Qed.

(** What the loops leave behind when they end: an index other than the
    excluded ones, which is the one they started with or one a later value
    of [rand()] gave. *)
Lemma while_index2_returns (fuel : nat) (num index1 index2 : Z)
    (g g' : rand_state) (i2 : Z) :
  while_index2 RAND_MAX fuel num index1 index2 g = Returns (i2, g') ->
  later g g' /\ i2 <> index1 /\
  (i2 = index2 \/
   exists q : nat, (rand_pos g <= q)%nat /\ i2 = drawn_index RAND_MAX num g q).
Proof.
  revert index2 g. induction fuel as [| fuel IH]; intros index2 g; cbn [while_index2];
    destruct (Z.eqb_spec index2 index1) as [E | E].
  - discriminate.
  - unfold ret. intros [= <- <-]. auto using later_refl.
  - unfold bind. rewrite rand_returns. intros H. apply IH in H.
    destruct H as (Hl & Hne & Hsrc). cbn in Hl.
    split; [| split; [exact Hne |]].
    + destruct Hl as [Hs Hp]. cbn in *. split; [exact Hs | lia].
    + right. destruct Hsrc as [-> | (q & Hq & ->)].
      * exists (rand_pos g). split; [lia | reflexivity].
      * exists q. cbn in Hq. split; [lia | reflexivity].
  - unfold ret. intros [= <- <-]. auto using later_refl.
Qed.

Lemma while_index3_returns (fuel : nat) (num index1 index2 index3 : Z)
    (g g' : rand_state) (i3 : Z) :
  while_index3 RAND_MAX fuel num index1 index2 index3 g = Returns (i3, g') ->
  later g g' /\ i3 <> index1 /\ i3 <> index2 /\
  (i3 = index3 \/
   exists q : nat, (rand_pos g <= q)%nat /\ i3 = drawn_index RAND_MAX num g q).
Proof.
  revert index3 g. induction fuel as [| fuel IH]; intros index3 g; cbn [while_index3];
    destruct (Z.eqb_spec index3 index1) as [E1 | E1];
    destruct (Z.eqb_spec index3 index2) as [E2 | E2]; cbn [orb];
    try discriminate;
    try (unfold ret; intros [= <- <-]; now auto using later_refl).
  all: unfold bind; rewrite rand_returns; intros H; apply IH in H;
    destruct H as (Hl & Hne1 & Hne2 & Hsrc); cbn in Hl;
    (split; [| split; [exact Hne1 | split; [exact Hne2 |]]]);
    [ destruct Hl as [Hs Hp]; cbn in *; split; [exact Hs | lia]
    | right; destruct Hsrc as [-> | (q & Hq & ->)];
      [ exists (rand_pos g); split; [lia | reflexivity]
      | exists q; cbn in Hq; split; [lia | reflexivity] ] ].
Qed.

End Sampling.

Section SamplingRuns.

Variable RAND_MAX : Z.

Lemma while_index2_total (fuel : nat) (num index1 index2 : Z) (g : rand_state) :
  (index2 <> index1 \/
   exists q : nat, (rand_pos g <= q < rand_pos g + fuel)%nat /\
                   drawn_index RAND_MAX num g q <> index1) ->
  exists (i2 : Z) (g' : rand_state),
    while_index2 RAND_MAX fuel num index1 index2 g = Returns (i2, g').
Proof.
  revert index2 g. induction fuel as [| fuel IH]; intros index2 g H;
    cbn [while_index2]; destruct (Z.eqb_spec index2 index1) as [E | E];
    try (now eexists _, _).
  - destruct H as [H | (q & Hq & _)]; [contradiction | lia].
  - unfold bind. rewrite rand_returns. apply IH. cbn.
    destruct H as [H | (q & Hq & Hne)]; [contradiction |].
    destruct (Nat.eq_dec q (rand_pos g)) as [-> | Hq'].
    + left. exact Hne.
    + right. exists q. split; [lia | exact Hne].
Qed.

Lemma while_index3_total (fuel : nat) (num index1 index2 index3 : Z)
    (g : rand_state) :
  ((index3 <> index1 /\ index3 <> index2) \/
   exists q : nat, (rand_pos g <= q < rand_pos g + fuel)%nat /\
                   drawn_index RAND_MAX num g q <> index1 /\
                   drawn_index RAND_MAX num g q <> index2) ->
  exists (i3 : Z) (g' : rand_state),
    while_index3 RAND_MAX fuel num index1 index2 index3 g = Returns (i3, g').
Proof.
  revert index3 g. induction fuel as [| fuel IH]; intros index3 g H;
    cbn [while_index3];
    destruct (Z.eqb_spec index3 index1) as [E1 | E1];
    destruct (Z.eqb_spec index3 index2) as [E2 | E2]; cbn [orb];
    try (now eexists _, _);
    try (destruct H as [[H1 H2] | (q & Hq & _)]; [contradiction | lia]).
  all: unfold bind; rewrite rand_returns; apply IH; cbn;
    destruct H as [[H1 H2] | (q & Hq & Hne)]; [contradiction |];
    destruct (Nat.eq_dec q (rand_pos g)) as [-> | Hq'];
    [ left; exact Hne | right; exists q; split; [lia | exact Hne] ].
Qed.

Lemma while_index2_no_throw (fuel : nat) (num index1 index2 : Z)
    (g : rand_state) (e : exception) :
  while_index2 RAND_MAX fuel num index1 index2 g <> Throws e.
Proof.
  revert index2 g. induction fuel as [| fuel IH]; intros index2 g;
    cbn [while_index2]; destruct (index2 =? index1); try discriminate.
  unfold bind. rewrite rand_returns. apply IH.
Qed.

Lemma while_index3_no_throw (fuel : nat) (num index1 index2 index3 : Z)
    (g : rand_state) (e : exception) :
  while_index3 RAND_MAX fuel num index1 index2 index3 g <> Throws e.
Proof.
  revert index3 g. induction fuel as [| fuel IH]; intros index3 g;
    cbn [while_index3]; destruct ((index3 =? index1) || (index3 =? index2));
    try discriminate.
  unfold bind. rewrite rand_returns. apply IH.
Qed.

(** The state after the three calls of [rand()] a trial starts with. *)
Lemma sample_indices_unfold (fuel : nat) (num : Z) (g : rand_state) :
  let p := rand_pos g in
  let g3 := {| rand_seq := rand_seq g; rand_pos := S (S (S p)) |} in
  let index1 := drawn_index RAND_MAX num g p in
  sample_indices RAND_MAX fuel num g
  = (index2 <- while_index2 RAND_MAX fuel num index1
                 (drawn_index RAND_MAX num g (S p)) ;;
     index3 <- while_index3 RAND_MAX fuel num index1 index2
                 (drawn_index RAND_MAX num g (S (S p))) ;;
     ret (index1, index2, index3)) g3.
Proof. reflexivity. Qed.

End SamplingRuns.

Section TrialRuns.

Variable eigen : Mat33 -> Vec3 * Mat33.
Variable RAND_MAX : Z.

(** The three indices a trial ends up with are pairwise distinct, each was
    given by a value of [rand()], and at least three values were consumed. *)
Lemma sample_indices_returns (fuel : nat) (num : Z) (g g' : rand_state)
    (index1 index2 index3 : Z) :
  sample_indices RAND_MAX fuel num g = Returns ((index1, index2, index3), g') ->
  later g g' /\ (rand_pos g + 3 <= rand_pos g')%nat /\
  index1 <> index2 /\ index1 <> index3 /\ index2 <> index3 /\
  (forall index, index = index1 \/ index = index2 \/ index = index3 ->
     exists q : nat, (rand_pos g <= q)%nat /\
                     index = drawn_index RAND_MAX num g q).
Proof.
  rewrite sample_indices_unfold. cbv zeta.
  set (g3 := {| rand_seq := rand_seq g; rand_pos := S (S (S (rand_pos g))) |}).
  assert (Hg3 : later g g3) by (split; cbn; [reflexivity | lia]).
  intros H.
  apply bind_returns in H. destruct H as (i2 & g4 & H2 & H).
  apply bind_returns in H. destruct H as (i3 & g5 & H3 & H).
  unfold ret in H. injection H as <- <- <- <-.
  apply while_index2_returns in H2. destruct H2 as (L2 & N2 & S2).
  apply while_index3_returns in H3. destruct H3 as (L3 & N31 & N32 & S3).
  assert (L5 : later g g5) by eauto using later_trans.
  assert (P4 : (rand_pos g3 <= rand_pos g4)%nat) by apply L2.
  assert (P5 : (rand_pos g4 <= rand_pos g5)%nat) by apply L3.
  cbn in P4.
  split; [exact L5 |]. split; [lia |].
  split; [congruence |]. split; [congruence |]. split; [congruence |].
  intros index [-> | [-> | ->]].
  - exists (rand_pos g). split; [lia | reflexivity].
  - destruct S2 as [-> | (q & Hq & ->)].
    + exists (S (rand_pos g)). split; [lia | reflexivity].
    + exists q. cbn in Hq. split; [lia |].
      apply (drawn_index_later RAND_MAX num g g3 q Hg3).
  - destruct S3 as [-> | (q & Hq & ->)].
    + exists (S (S (rand_pos g))). split; [lia | reflexivity].
    + exists q. split; [lia |].
      apply (drawn_index_later RAND_MAX num g g4 q).
      eauto using later_trans.
Qed.

Lemma sample_indices_no_throw (fuel : nat) (num : Z) (g : rand_state)
    (e : exception) :
  sample_indices RAND_MAX fuel num g <> Throws e.
Proof.
  rewrite sample_indices_unfold. cbv zeta. unfold bind.
  match goal with
  | |- context [while_index2 ?R ?f ?n ?a ?b ?s] =>
      pose proof (while_index2_no_throw R f n a b s) as N2;
      destruct (while_index2 R f n a b s) as [[i2 g4] | e2 |]
  end; try discriminate.
  - match goal with
    | |- context [while_index3 ?R ?f ?n ?a ?b ?c ?s] =>
        pose proof (while_index3_no_throw R f n a b c s) as N3;
        destruct (while_index3 R f n a b c s) as [[i3 g5] | e3 |]
    end; try discriminate.
    intros [= ->]. now apply (N3 e).
  - intros [= ->]. now apply (N2 e).
Qed.

(** With values of [rand()] that vary enough, the index loops end. *)
Lemma sample_indices_total (fuel : nat) (num : Z) (g : rand_state) :
  indices_vary RAND_MAX fuel num g ->
  exists (idx : Z * Z * Z) (g' : rand_state),
    sample_indices RAND_MAX fuel num g = Returns (idx, g').
Proof.
  intros Hv. rewrite sample_indices_unfold. cbv zeta.
  set (g3 := {| rand_seq := rand_seq g; rand_pos := S (S (S (rand_pos g))) |}).
  assert (Hg3 : later g g3) by (split; cbn; [reflexivity | lia]).
  set (index1 := drawn_index RAND_MAX num g (rand_pos g)).
  destruct (while_index2_total RAND_MAX fuel num index1
              (drawn_index RAND_MAX num g (S (rand_pos g))) g3)
    as (i2 & g4 & H2).
  { right. destruct (indices_vary_later RAND_MAX fuel num g g3 Hg3 Hv
                       (rand_pos g3) index1 index1 (le_n _))
      as (q & Hq & Hne & _).
    exists q. split; [exact Hq |]. exact Hne. }
  pose proof (while_index2_returns RAND_MAX _ _ _ _ _ _ _ H2) as (L2 & _).
  assert (Hg4 : later g g4) by eauto using later_trans.
  destruct (while_index3_total RAND_MAX fuel num index1 i2
              (drawn_index RAND_MAX num g (S (S (rand_pos g)))) g4)
    as (i3 & g5 & H3).
  { right. destruct (indices_vary_later RAND_MAX fuel num g g4 Hg4 Hv
                       (rand_pos g4) index1 i2 (le_n _))
      as (q & Hq & Hne).
    exists q. split; [exact Hq |]. exact Hne. }
  exists (index1, i2, i3), g5.
  rewrite (bind_of_returns _ _ _ _ _ H2), (bind_of_returns _ _ _ _ _ H3).
  reflexivity.
Qed.

End TrialRuns.

Lemma of_size_le (n : nat) : Int.of_size n <= Z.of_nat n.
Proof.
  unfold Int.of_size, Int.wrap.
  pose proof (Z.mod_le (Z.of_nat n + 2147483648) 4294967296). lia.
Qed.

Section CandidateRuns.

Variable eigen : Mat33 -> Vec3 * Mat33.
Variable RAND_MAX : Z.

Lemma minimal_sample_total (pts : list Point3f) (index1 index2 index3 : Z)
    (g : rand_state) :
  0 <= index1 < Z.of_nat (length pts) ->
  0 <= index2 < Z.of_nat (length pts) ->
  0 <= index3 < Z.of_nat (length pts) ->
  exists sample : list Point3f,
    minimal_sample pts (index1, index2, index3) g = Returns (sample, g).
Proof.
  intros H1 H2 H3. unfold minimal_sample.
  destruct (vector_at_in_range pts index1 g H1) as (pt1 & E1).
  destruct (vector_at_in_range pts index2 g H2) as (pt2 & E2).
  destruct (vector_at_in_range pts index3 g H3) as (pt3 & E3).
  exists [pt1; pt2; pt3].
  rewrite (bind_of_returns _ _ _ _ _ E1), (bind_of_returns _ _ _ _ _ E2),
    (bind_of_returns _ _ _ _ _ E3).
  reflexivity.
Qed.

(** The outcome of a trial when the values of [rand()] give indices in
    range: it is never an exception; it is a candidate exactly when the
    index loops end. *)
Lemma trial_candidate_in_range (fuel : nat) (pts : list Point3f)
    (threshold : F32.t) (g : rand_state) :
  indices_in_range RAND_MAX (Int.of_size (length pts)) g ->
  match sample_indices RAND_MAX fuel (Int.of_size (length pts)) g with
  | Returns (idx, g') =>
      exists c : Plane * Z,
        trial_candidate eigen RAND_MAX fuel pts threshold g = Returns (c, g')
  | Throws e => False
  | Diverges =>
      trial_candidate eigen RAND_MAX fuel pts threshold g = Diverges
  end.
Proof.
  intros Hr. unfold trial_candidate.
  destruct (sample_indices RAND_MAX fuel (Int.of_size (length pts)) g)
    as [[[[i1 i2] i3] g'] | e |] eqn:Hs.
  - destruct (sample_indices_returns _ _ _ _ _ _ _ _ Hs)
      as (Hl & _ & _ & _ & _ & Hsrc).
    assert (Hin : forall index,
               index = i1 \/ index = i2 \/ index = i3 ->
               0 <= index < Z.of_nat (length pts)).
    { intros index Hi. destruct (Hsrc index Hi) as (q & Hq & ->).
      pose proof (Hr q Hq). pose proof (of_size_le (length pts)). lia. }
    destruct (minimal_sample_total pts i1 i2 i3 g') as (sample & Hm); auto.
    eexists.
    rewrite (bind_of_returns _ _ _ _ _ Hs), (bind_of_returns _ _ _ _ _ Hm).
    reflexivity.
  - now apply sample_indices_no_throw in Hs.
  - now rewrite (bind_of_diverges _ _ _ Hs).
Qed.

Lemma trial_candidate_later (fuel : nat) (pts : list Point3f)
    (threshold : F32.t) (g g' : rand_state) (c : Plane * Z) :
  trial_candidate eigen RAND_MAX fuel pts threshold g = Returns (c, g') ->
  later g g' /\ (rand_pos g + 3 <= rand_pos g')%nat.
Proof.
  unfold trial_candidate. intros H.
  apply bind_returns in H. destruct H as ([[i1 i2] i3] & g1 & Hs & H).
  apply bind_returns in H. destruct H as (sample & g2 & Hm & H).
  unfold ret in H. injection H as _ <-.
  apply minimal_sample_returns in Hm. destruct Hm as (-> & _).
  apply sample_indices_returns in Hs. tauto.
Qed.

Lemma candidates_later (fuel : nat) (pts : list Point3f) (threshold : F32.t)
    (iters : nat) (g g' : rand_state) (cs : list (Plane * Z)) :
  candidates eigen RAND_MAX fuel pts threshold iters g = Returns (cs, g') ->
  later g g' /\ (rand_pos g + 3 * iters <= rand_pos g')%nat.
Proof.
  revert g cs. induction iters as [| iters IH]; intros g cs; cbn [candidates].
  - unfold ret. intros [= _ <-]. split; [apply later_refl | lia].
  - intros H. apply bind_returns in H. destruct H as (c & g1 & Hc & H).
    apply bind_returns in H. destruct H as (cs' & g2 & Hcs & H).
    unfold ret in H. injection H as _ <-.
    apply trial_candidate_later in Hc. apply IH in Hcs.
    destruct Hc as [L1 P1], Hcs as [L2 P2].
    split; [eauto using later_trans | lia].
Qed.

(** With indices in range and values that vary enough, every trial of the
    loop ends with a candidate. *)
Lemma candidates_total (fuel : nat) (pts : list Point3f) (threshold : F32.t)
    (iters : nat) (g : rand_state) :
  indices_in_range RAND_MAX (Int.of_size (length pts)) g ->
  indices_vary RAND_MAX fuel (Int.of_size (length pts)) g ->
  exists (cs : list (Plane * Z)) (g' : rand_state),
    candidates eigen RAND_MAX fuel pts threshold iters g = Returns (cs, g').
Proof.
  revert g. induction iters as [| iters IH]; intros g Hr Hv; cbn [candidates].
  - now eexists _, _.
  - pose proof (trial_candidate_in_range fuel pts threshold g Hr) as Ht.
    destruct (sample_indices_total RAND_MAX fuel _ g Hv) as (idx & g1 & Hs).
    rewrite Hs in Ht. destruct Ht as (c & Hc).
    pose proof (trial_candidate_later _ _ _ _ _ _ Hc) as (L1 & _).
    destruct (IH g1) as (cs & g2 & Hcs);
      eauto using indices_in_range_later, indices_vary_later.
    exists (c :: cs), g2.
    rewrite (bind_of_returns _ _ _ _ _ Hc), (bind_of_returns _ _ _ _ _ Hcs).
    reflexivity.
Qed.

(** With indices in range the loop raises no exception. *)
Lemma candidates_no_throw (fuel : nat) (pts : list Point3f) (threshold : F32.t)
    (iters : nat) (g : rand_state) (e : exception) :
  indices_in_range RAND_MAX (Int.of_size (length pts)) g ->
  candidates eigen RAND_MAX fuel pts threshold iters g <> Throws e.
Proof.
  revert g. induction iters as [| iters IH]; intros g Hr; cbn [candidates].
  - discriminate.
  - pose proof (trial_candidate_in_range fuel pts threshold g Hr) as Ht.
    destruct (sample_indices RAND_MAX fuel (Int.of_size (length pts)) g)
      as [[idx g1] | e1 |]; [| contradiction |].
    + destruct Ht as (c & Hc).
      pose proof (trial_candidate_later _ _ _ _ _ _ Hc) as (L1 & _).
      rewrite (bind_of_returns _ _ _ _ _ Hc). unfold bind.
      specialize (IH g1 (indices_in_range_later _ _ _ _ L1 Hr)).
      destruct (candidates eigen RAND_MAX fuel pts threshold iters g1)
        as [[cs g2] | e2 |]; try discriminate.
      intros [= ->]. now apply IH.
    + rewrite (bind_of_diverges _ _ _ Ht). discriminate.
Qed.

(** The triples are those of the trials of the loop. *)
Lemma candidates_triples (fuel : nat) (pts : list Point3f) (threshold : F32.t)
    (iters : nat) (g g' : rand_state) (cs : list (Plane * Z)) :
  candidates eigen RAND_MAX fuel pts threshold iters g = Returns (cs, g') ->
  exists ts : list (Z * Z * Z),
    triples RAND_MAX fuel (Int.of_size (length pts)) iters g = Returns (ts, g') /\
    length ts = iters.
Proof.
  revert g cs. induction iters as [| iters IH]; intros g cs;
    cbn [candidates triples].
  - unfold ret. intros [= _ <-]. now exists [].
  - intros H. apply bind_returns in H. destruct H as (c & g1 & Hc & H).
    apply bind_returns in H. destruct H as (cs' & g2 & Hcs & H).
    unfold ret in H. injection H as _ <-.
    unfold trial_candidate in Hc.
    apply bind_returns in Hc. destruct Hc as (idx & g0 & Hs & Hc).
    apply bind_returns in Hc. destruct Hc as (sample & g0' & Hm & Hc).
    unfold ret in Hc. injection Hc as _ <-.
    apply minimal_sample_returns in Hm. destruct Hm as (-> & _).
    destruct (IH _ _ Hcs) as (ts & Hts & Hlen).
    exists (idx :: ts).
    rewrite (bind_of_returns _ _ _ _ _ Hs), (bind_of_returns _ _ _ _ _ Hts).
    split; [reflexivity | cbn; now f_equal].
Qed.

End CandidateRuns.

(** ** The refit *)

Lemma combine_flags_filter (f : Point3f -> bool) (l : list Point3f) :
  map fst (filter snd (combine l (map f l))) = filter f l.
Proof.
  induction l as [| pt l IH]; cbn; [reflexivity |].
  destruct (f pt); cbn; now rewrite IH.
Qed.

(** The points collected for the refit are the visited points below the
    threshold. *)
Lemma inlier_points_filter (pts : list Point3f) (plane : Plane) (threshold : F32.t) :
  inlier_points pts (isInliers (PlanePointRANSACDifferences pts plane threshold))
  = filter (flag_of plane threshold) (visited pts).
Proof.
  unfold inlier_points. rewrite classifier_isInliers. apply combine_flags_filter.
Qed.

Section Refit.

Variable eigen : Mat33 -> Vec3 * Mat33.
Variable RAND_MAX : Z.
Variable uninitialized : Plane.

(** The estimator is: go through the candidates, select, classify, refit. *)
Lemma EstimatePlaneRANSAC_select (fuel : nat) (pts : list Point3f)
    (threshold : F32.t) (iterateNum : Z) (g : rand_state) :
  EstimatePlaneRANSAC eigen RAND_MAX uninitialized fuel pts threshold iterateNum g
  = match candidates eigen RAND_MAX fuel pts threshold (Z.to_nat iterateNum) g with
    | Returns (cs, g') =>
        let best :=
          select_best cs
            {| bestSampleInlierNum := 0; bestPlane := uninitialized |} in
        Returns (EstimatePlaneOptimal eigen
                   (filter (flag_of (bestPlane best) threshold) (visited pts)),
                 g')
    | Throws e => Throws e
    | Diverges => Diverges
    end.
Proof.
  unfold EstimatePlaneRANSAC, bind. rewrite trials_select.
  destruct (candidates eigen RAND_MAX fuel pts threshold (Z.to_nat iterateNum) g)
    as [[cs g'] | e |]; try reflexivity.
  cbv zeta. unfold ret. now rewrite inlier_points_filter.
Qed.

(** Where the plane the selection ends with comes from, when it started
    from the score 0 and the content of the array. *)
Lemma select_best_from_start (cs : list (Plane * Z)) :
  let best :=
    select_best cs {| bestSampleInlierNum := 0; bestPlane := uninitialized |} in
  (exists c : Plane * Z,
      In c cs /\ bestPlane best = fst c /\ 0 < snd c /\
      forall c', In c' cs -> snd c' <= snd c)
  \/
  (bestPlane best = uninitialized /\ forall c, In c cs -> snd c <= 0).
Proof.
  cbv zeta.
  destruct (select_best_first_maximum cs
              {| bestSampleInlierNum := 0; bestPlane := uninitialized |})
    as [(-> & Hall) | (pre & c & post & -> & -> & Hlt & Hpre & Hpost)].
  - right. split; [reflexivity | exact Hall].
  - left. exists c. cbn in *. repeat split; auto.
    + apply in_or_app. right. now left.
    + intros c' Hin. apply in_app_or in Hin.
      destruct Hin as [Hin | [<- | Hin]]; [| lia | auto].
      specialize (Hpre c' Hin). lia.
Qed.

End Refit.

(** ** The example generators *)

Lemma varied_period (r k : nat) :
  (r < 6)%nat ->
  rand_seq Examples.varied (r + k * 6)
  = nth r [0; 1073741823; 1610612736; 536870912; 2013265920; 1073741823] 0.
Proof.
  intros Hr. cbn [Examples.varied Examples.cycle rand_seq length].
  now rewrite Nat.Div0.mod_add, Nat.mod_small.
Qed.

Lemma varied_in_range :
  indices_in_range Examples.RAND_MAX_glibc 5 Examples.varied.
Proof.
  intros i _. unfold drawn_index.
  cbn [Examples.varied Examples.cycle rand_seq length].
  pose proof (Nat.mod_upper_bound i 6 ltac:(discriminate)) as Hlt.
  destruct (i mod 6)%nat as [| [| [| [| [| [| n]]]]]]; try lia;
    vm_compute; split; congruence.
Qed.

Lemma varied_vary :
  indices_vary Examples.RAND_MAX_glibc 12 5 Examples.varied.
Proof.
  intros p a b _.
  pose proof (Nat.div_mod_eq p 6) as Hp.
  pose proof (Nat.mod_upper_bound p 6 ltac:(discriminate)) as Hlt.
  set (k := S (p / 6)).
  assert (I0 : drawn_index Examples.RAND_MAX_glibc 5 Examples.varied (0 + k * 6) = 0)
    by (unfold drawn_index; rewrite varied_period by lia; vm_compute; reflexivity).
  assert (I1 : drawn_index Examples.RAND_MAX_glibc 5 Examples.varied (1 + k * 6) = 2)
    by (unfold drawn_index; rewrite varied_period by lia; vm_compute; reflexivity).
  assert (I2 : drawn_index Examples.RAND_MAX_glibc 5 Examples.varied (2 + k * 6) = 3)
    by (unfold drawn_index; rewrite varied_period by lia; vm_compute; reflexivity).
  destruct (Z.eq_dec a 0) as [Ha0 | Ha0]; destruct (Z.eq_dec b 0) as [Hb0 | Hb0];
    destruct (Z.eq_dec a 2) as [Ha2 | Ha2]; destruct (Z.eq_dec b 2) as [Hb2 | Hb2];
    try lia;
    first
      [ exists (0 + k * 6)%nat; rewrite I0; split; [subst k; lia | split; lia]
      | exists (1 + k * 6)%nat; rewrite I1; split; [subst k; lia | split; lia]
      | exists (2 + k * 6)%nat; rewrite I2; split; [subst k; lia | split; lia] ].
Qed.

(** ** The robust estimator *)

(** What a call that returns has done.  For a cloud whose size fits an
    [int] and [k >= 1] iterations: whenever the estimator returns, its loop
    has gone through exactly [k] candidates, and the value returned is the
    optimal plane of those points of the cloud that the classifier flags
    against the plane the selection ended with.  That plane is a candidate
    of the greatest score when some score is positive, and the content the
    array had before the loop otherwise.  And the estimator does return
    when the values of [rand()] give indices in range that vary enough for
    the index loops to end within the fuel. *)
Lemma EstimatePlaneRANSAC_refits_on_inliers
    (eigen : Mat33 -> Vec3 * Mat33) (RAND_MAX : Z) (uninitialized : Plane)
    (fuel : nat) (pts : list Point3f) (threshold : F32.t) (k : Z)
    (g : rand_state) :
  fits_int pts ->
  1 <= k ->
  (forall (plane : Plane) (g' : rand_state),
      EstimatePlaneRANSAC eigen RAND_MAX uninitialized fuel pts threshold k g
      = Returns (plane, g') ->
      exists cs : list (Plane * Z),
        candidates eigen RAND_MAX fuel pts threshold (Z.to_nat k) g
        = Returns (cs, g') /\
        Z.of_nat (length cs) = k /\
        let best :=
          select_best cs
            {| bestSampleInlierNum := 0; bestPlane := uninitialized |} in
        ((exists c : Plane * Z,
             In c cs /\ bestPlane best = fst c /\ 0 < snd c /\
             forall c', In c' cs -> snd c' <= snd c)
         \/
         (bestPlane best = uninitialized /\ forall c, In c cs -> snd c <= 0)) /\
        plane
        = EstimatePlaneOptimal eigen
            (filter
               (fun pt =>
                  F32.ltb (point_plane_diff (bestPlane best) pt) threshold)
               pts))
  /\
  (indices_in_range RAND_MAX (Z.of_nat (length pts)) g ->
   indices_vary RAND_MAX fuel (Z.of_nat (length pts)) g ->
   exists (plane : Plane) (g' : rand_state),
     EstimatePlaneRANSAC eigen RAND_MAX uninitialized fuel pts threshold k g
     = Returns (plane, g')).
Proof.
  intros Hfit Hk. rewrite EstimatePlaneRANSAC_select.
  rewrite (visited_fits pts Hfit), <- (of_size_fits pts Hfit).
  split.
  - intros plane g'.
    destruct (candidates eigen RAND_MAX fuel pts threshold (Z.to_nat k) g)
      as [[cs g1] | e |] eqn:Hcs; try discriminate.
    cbv zeta. intros [= <- <-]. exists cs.
    split; [reflexivity |].
    split; [rewrite (candidates_length _ _ _ _ _ _ _ _ _ Hcs); lia |].
    split; [apply select_best_from_start | reflexivity].
  - intros Hr Hv.
    destruct (candidates_total eigen RAND_MAX fuel pts threshold (Z.to_nat k) g Hr Hv)
      as (cs & g' & ->).
    now eexists _, _.
Qed.

(** The triples of the example. *)
Example triples_run :
  triples Examples.RAND_MAX_glibc 12 5 4 Examples.varied
  = Returns ([(0, 2, 3); (1, 4, 2); (0, 2, 3); (1, 4, 2)],
             {| rand_seq := rand_seq Examples.varied; rand_pos := 12 |}).
Proof. vm_compute. reflexivity. Qed.

(** The run of the example: four trials, twelve values of [rand()], and the
    plane refitted on the four points of the square. *)
Example EstimatePlaneRANSAC_run :
  EstimatePlaneRANSAC Examples.eigen_axes Examples.RAND_MAX_glibc
    Examples.stale 12 Examples.square_and_outlier Examples.half 4
    Examples.varied
  = Returns ({| pA := F32.zero; pB := F32.zero; pC := F32.of_int 1;
                pD := S754_zero true |},
             {| rand_seq := rand_seq Examples.varied; rand_pos := 12 |}).
Proof. vm_compute. reflexivity. Qed.

(** ** Clouds of one or two points *)

Section SmallClouds.

Variable eigen : Mat33 -> Vec3 * Mat33.
Variable RAND_MAX : Z.
Variable uninitialized : Plane.

(** Three pairwise distinct indices do not fit in [0, 2): with indices in
    range the index loops of a trial never end. *)
Lemma sample_indices_small (fuel : nat) (num : Z) (g : rand_state) :
  num <= 2 ->
  indices_in_range RAND_MAX num g ->
  sample_indices RAND_MAX fuel num g = Diverges.
Proof.
  intros Hnum Hr.
  destruct (sample_indices RAND_MAX fuel num g)
    as [[[[i1 i2] i3] g'] | e |] eqn:Hs.
  - exfalso. apply sample_indices_returns in Hs.
    destruct Hs as (_ & _ & N12 & N13 & N23 & Hsrc).
    destruct (Hsrc i1) as (q1 & Hq1 & E1); [tauto |].
    destruct (Hsrc i2) as (q2 & Hq2 & E2); [tauto |].
    destruct (Hsrc i3) as (q3 & Hq3 & E3); [tauto |].
    pose proof (Hr q1 Hq1). pose proof (Hr q2 Hq2). pose proof (Hr q3 Hq3).
    lia.
  - now apply sample_indices_no_throw in Hs.
  - reflexivity.
Qed.

Lemma EstimatePlaneRANSAC_small (fuel : nat) (pts : list Point3f)
    (threshold : F32.t) (k : Z) (g : rand_state) :
  (length pts <= 2)%nat ->
  1 <= k ->
  indices_in_range RAND_MAX (Z.of_nat (length pts)) g ->
  EstimatePlaneRANSAC eigen RAND_MAX uninitialized fuel pts threshold k g
  = Diverges.
Proof.
  intros Hlen Hk Hr.
  assert (Hfit : fits_int pts) by (unfold fits_int, Int.INT_MAX; lia).
  rewrite <- (of_size_fits pts Hfit) in Hr.
  rewrite EstimatePlaneRANSAC_select.
  destruct (Z.to_nat k) as [| iters] eqn:Ek; [lia |].
  cbn [candidates].
  assert (Hs : sample_indices RAND_MAX fuel (Int.of_size (length pts)) g = Diverges).
  { apply sample_indices_small; [| exact Hr].
    rewrite (of_size_fits pts Hfit). lia. }
  assert (Ht : trial_candidate eigen RAND_MAX fuel pts threshold g = Diverges).
  { unfold trial_candidate. now rewrite (bind_of_diverges _ _ _ Hs). }
  now rewrite (bind_of_diverges _ _ _ Ht).
Qed.

End SmallClouds.

Lemma zeros_in_range : indices_in_range Examples.RAND_MAX_glibc 2 Examples.zeros.
Proof.
  intros i _. unfold drawn_index.
  cbn [Examples.zeros Examples.cycle rand_seq length].
  rewrite Nat.mod_1_r. vm_compute. split; congruence.
Qed.

(** C10. On a cloud of one or two points, with [k >= 1] iterations and
    values of [rand()] that all give indices in [0, n), the index loops of
    the first trial do not end, whatever the fuel: three pairwise distinct
    indices are needed and at most two exist.  The estimator diverges; it
    reports nothing. *)
Theorem EstimatePlaneRANSAC_diverges_below_three
    (eigen : Mat33 -> Vec3 * Mat33) (RAND_MAX : Z) (uninitialized : Plane)
    (fuel : nat) (pts : list Point3f) (threshold : F32.t) (k : Z)
    (g : rand_state) :
  length pts = 1%nat \/ length pts = 2%nat ->
  1 <= k ->
  indices_in_range RAND_MAX (Z.of_nat (length pts)) g ->
  sample_indices RAND_MAX fuel (Z.of_nat (length pts)) g = Diverges /\
  EstimatePlaneRANSAC eigen RAND_MAX uninitialized fuel pts threshold k g
  = Diverges.
Proof.
  intros Hlen Hk Hr. split.
  - apply sample_indices_small; [lia | exact Hr].
  - apply EstimatePlaneRANSAC_small; [lia | exact Hk | exact Hr].
Qed.

Lemma EstimatePlaneRANSAC_diverges_below_three_witness :
  (length Examples.two_points = 1%nat \/ length Examples.two_points = 2%nat) /\
  1 <= 1 /\
  indices_in_range Examples.RAND_MAX_glibc
    (Z.of_nat (length Examples.two_points)) Examples.zeros /\
  EstimatePlaneRANSAC Examples.eigen_axes Examples.RAND_MAX_glibc
    Examples.stale 1000 Examples.two_points Examples.half 1 Examples.zeros
  = Diverges.
Proof.
  assert (Hlen : length Examples.two_points = 1%nat
                 \/ length Examples.two_points = 2%nat) by (right; reflexivity).
  assert (Hk : 1 <= 1) by lia.
  assert (Hr : indices_in_range Examples.RAND_MAX_glibc
                 (Z.of_nat (length Examples.two_points)) Examples.zeros)
    by exact zeros_in_range.
  split; [exact Hlen |]. split; [exact Hk |]. split; [exact Hr |].
  apply (EstimatePlaneRANSAC_diverges_below_three
           Examples.eigen_axes Examples.RAND_MAX_glibc Examples.stale 1000
           Examples.two_points Examples.half 1 Examples.zeros Hlen Hk Hr).
Defined.

(** ** An index equal to the size *)

(** C7, evaluated. [rand()] returning [RAND_MAX] makes [(float)(rand())/RAND_MAX]
    equal to 1 and the index [(int)(1*num)] equal to [num]: on the cloud of
    five points the first trial draws the indices 5, 0 and 2, which are
    pairwise distinct, and [pts.at(5)] raises [std::out_of_range]. *)
Theorem sampled_index_reaches_size
    (eigen : Mat33 -> Vec3 * Mat33) (uninitialized : Plane) (threshold : F32.t) :
  rand_index Examples.RAND_MAX_glibc Examples.RAND_MAX_glibc 5 = 5 /\
  sample_indices Examples.RAND_MAX_glibc 12 5 Examples.top_first
  = Returns ((5, 0, 2),
             {| rand_seq := rand_seq Examples.top_first; rand_pos := 3 |}) /\
  EstimatePlaneRANSAC eigen Examples.RAND_MAX_glibc uninitialized 12
    Examples.square_and_outlier threshold 1 Examples.top_first
  = Throws out_of_range.
Proof.
  split; [vm_compute; reflexivity |].
  split; [vm_compute; reflexivity |].
  reflexivity.
Qed.

(** The same with the smallest [RAND_MAX] the C standard allows. *)
Example index_reaches_size_32767 :
  rand_index 32767 32767 5 = 5 /\ rand_index 32767 32766 5 = 4.
Proof. split; vm_compute; reflexivity. Qed.

(** The rounding of [(float)(rand())] makes the same happen for the 63
    values of [rand()] from 2147483584 up to [RAND_MAX - 1] as well. *)
Example index_reaches_size_by_rounding :
  rand_index Examples.RAND_MAX_glibc 2147483584 5 = 5 /\
  rand_index Examples.RAND_MAX_glibc 2147483583 5 = 4.
Proof. split; vm_compute; reflexivity. Qed.

(** ** Inputs the functions do not check *)

Lemma classifier_nonpositive_threshold (pts : list Point3f) (plane : Plane)
    (threshold : F32.t) :
  F32.leb threshold F32.zero = true ->
  isInliers (PlanePointRANSACDifferences pts plane threshold)
  = map (fun _ => false) (visited pts) /\
  inliersNum (PlanePointRANSACDifferences pts plane threshold) = 0.
Proof.
  intros Hneg.
  assert (Hnone : forall pt, flag_of plane threshold pt = false).
  { intros pt. unfold flag_of, point_plane_diff. now apply ltb_abs_nonpositive. }
  rewrite classifier_inliersNum, classifier_isInliers. split.
  - apply map_ext. exact Hnone.
  - now rewrite count_true_all_false.
Qed.

Section Unchecked.

Variable eigen : Mat33 -> Vec3 * Mat33.
Variable RAND_MAX : Z.
Variable uninitialized : Plane.

(** The plane of the fitter, for a cloud of any size. *)
Lemma EstimatePlaneOptimal_plane (pts : list Point3f) :
  let t := centre_of_gravity pts in
  let evecs := snd (eigen (gram (centred pts t))) in
  EstimatePlaneOptimal eigen pts
  = {| pA := mat_at evecs 2 0;
       pB := mat_at evecs 2 1;
       pC := mat_at evecs 2 2;
       pD := plane_offset (mat_at evecs 2 0) (mat_at evecs 2 1)
               (mat_at evecs 2 2) t |}.
Proof.
  cbv zeta. unfold EstimatePlaneOptimal.
  destruct (eigen (gram (centred pts (centre_of_gravity pts)))) as [evals evecs].
  reflexivity.
Qed.

(** With indices in range the estimator raises no exception. *)
Lemma EstimatePlaneRANSAC_no_throw (fuel : nat) (pts : list Point3f)
    (threshold : F32.t) (k : Z) (g : rand_state) (e : exception) :
  indices_in_range RAND_MAX (Int.of_size (length pts)) g ->
  EstimatePlaneRANSAC eigen RAND_MAX uninitialized fuel pts threshold k g
  <> Throws e.
Proof.
  intros Hr. rewrite EstimatePlaneRANSAC_select.
  pose proof (candidates_no_throw eigen RAND_MAX fuel pts threshold
                (Z.to_nat k) g e Hr) as Hc.
  destruct (candidates eigen RAND_MAX fuel pts threshold (Z.to_nat k) g)
    as [[cs g'] | e' |]; try discriminate.
  intros [= ->]. now apply Hc.
Qed.

(** Without iterations nothing is drawn and the refit is made on the
    points flagged against the content of the array. *)
Lemma EstimatePlaneRANSAC_no_iterations (fuel : nat) (pts : list Point3f)
    (threshold : F32.t) (k : Z) (g : rand_state) :
  k <= 0 ->
  EstimatePlaneRANSAC eigen RAND_MAX uninitialized fuel pts threshold k g
  = Returns (EstimatePlaneOptimal eigen
               (filter (flag_of uninitialized threshold) (visited pts)),
             g).
Proof.
  intros Hk. rewrite EstimatePlaneRANSAC_select.
  replace (Z.to_nat k) with 0%nat by lia. reflexivity.
Qed.

End Unchecked.

(** ** The eigenvector the fitter takes *)

Section EigenContract.

Variable eigen : Mat33 -> Vec3 * Mat33.

(** [eigenpair m l v]: to the accuracy of the solver, [v] is a unit
    eigenvector of [m] for the eigenvalue [l].  OpenCV documents that
    [eigen] stores the eigenvalues in descending order and the eigenvectors
    as the rows of its last argument, in the same order. *)
Variable eigenpair : Mat33 -> F32.t -> Vec3 -> Prop.

Hypothesis eigen_rows :
  forall (m : Mat33) (r : nat),
    (r < 3)%nat -> eigenpair m (col r (fst (eigen m))) (row r (snd (eigen m))).

(** The normal of the fitted plane is the row [eigen] pairs with the last,
    that is the smallest, eigenvalue of [X^T X]. *)
Lemma EstimatePlaneOptimal_last_eigenpair (pts : list Point3f) :
  let S := gram (centred pts (centre_of_gravity pts)) in
  let plane := EstimatePlaneOptimal eigen pts in
  eigenpair S (col 2 (fst (eigen S))) (pA plane, pB plane, pC plane).
Proof.
  cbv zeta. rewrite EstimatePlaneOptimal_plane. cbn [pA pB pC].
  pose proof (eigen_rows (gram (centred pts (centre_of_gravity pts))) 2
                ltac:(lia)) as H.
  unfold mat_at.
  destruct (row 2 (snd (eigen (gram (centred pts (centre_of_gravity pts))))))
    as [[v0 v1] v2] eqn:E.
  exact H.
Qed.

End EigenContract.

(** C5, as stated, fails: on a cloud of two points the fitter returns a
    plane (here the one the stand-in for [eigen] gives), and the estimator
    with one iteration reports no error; it is inside its first trial when
    the fuel is spent. *)
Lemma two_points_raise_no_error :
  (length Examples.two_points < 3)%nat /\
  EstimatePlaneOptimal Examples.eigen_axes Examples.two_points
  = {| pA := F32.zero; pB := F32.zero; pC := F32.of_int 1;
       pD := S754_zero true |} /\
  EstimatePlaneRANSAC Examples.eigen_axes Examples.RAND_MAX_glibc
    Examples.stale 1000 Examples.two_points Examples.half 1 Examples.zeros
  = Diverges.
Proof.
  split; [cbn; lia |].
  split; [vm_compute; reflexivity |].
  apply EstimatePlaneRANSAC_small; [cbn; lia | lia | exact zeros_in_range].
Qed.

(** C5, amended. For a cloud of fewer than three points neither function
    reports an error for the size: the fitter returns the plane it computes
    for a cloud of any size, the last row of the eigenvector matrix of
    [X^T X] with the offset taken from the centre of gravity; and the
    estimator raises no exception as long as the values of [rand()] give
    indices in [0, n). *)
Theorem small_clouds_are_not_rejected
    (eigen : Mat33 -> Vec3 * Mat33) (RAND_MAX : Z) (uninitialized : Plane)
    (fuel : nat) (pts : list Point3f) (threshold : F32.t) (k : Z)
    (g : rand_state) :
  (length pts < 3)%nat ->
  (let t := centre_of_gravity pts in
   let evecs := snd (eigen (gram (centred pts t))) in
   EstimatePlaneOptimal eigen pts
   = {| pA := mat_at evecs 2 0;
        pB := mat_at evecs 2 1;
        pC := mat_at evecs 2 2;
        pD := plane_offset (mat_at evecs 2 0) (mat_at evecs 2 1)
                (mat_at evecs 2 2) t |})
  /\
  (indices_in_range RAND_MAX (Z.of_nat (length pts)) g ->
   forall e : exception,
     EstimatePlaneRANSAC eigen RAND_MAX uninitialized fuel pts threshold k g
     <> Throws e).
Proof.
  intros Hlen. split.
  - apply EstimatePlaneOptimal_plane.
  - intros Hr e. apply EstimatePlaneRANSAC_no_throw.
    rewrite of_size_fits; [exact Hr |].
    unfold fits_int, Int.INT_MAX. lia.
Qed.

Lemma small_clouds_are_not_rejected_witness :
  (length Examples.two_points < 3)%nat /\
  forall e : exception,
    EstimatePlaneRANSAC Examples.eigen_axes Examples.RAND_MAX_glibc
      Examples.stale 1000 Examples.two_points Examples.half 1 Examples.zeros
    <> Throws e.
Proof.
  assert (Hlen : (length Examples.two_points < 3)%nat) by (cbn; lia).
  split; [exact Hlen |].
  apply (small_clouds_are_not_rejected
           Examples.eigen_axes Examples.RAND_MAX_glibc Examples.stale 1000
           Examples.two_points Examples.half 1 Examples.zeros Hlen).
  exact zeros_in_range.
Defined.

(** C6, as stated, fails: the classifier called with the threshold -1/2
    returns a classification, and the estimator called with 0 iterations
    returns a plane. *)
Lemma nonpositive_parameters_raise_no_error :
  F32.leb (F32.opp Examples.half) F32.zero = true /\
  PlanePointRANSACDifferences Examples.square_and_outlier Examples.plane_z0
    (F32.opp Examples.half)
  = {| inliersNum := 0;
       distances := [F32.zero; F32.zero; F32.zero; F32.zero; Examples.ten];
       isInliers := [false; false; false; false; false] |} /\
  EstimatePlaneRANSAC Examples.eigen_axes Examples.RAND_MAX_glibc
    Examples.stale 12 Examples.square_and_outlier Examples.half 0
    Examples.varied
  = Returns ({| pA := F32.zero; pB := F32.zero; pC := F32.of_int 1;
                pD := S754_finite true 13981013 (-22) |},
             Examples.varied).
Proof. repeat split; vm_compute; reflexivity. Qed.

(** C6, amended. A threshold that is zero or negative is not an error: the
    classifier returns its distances with every flag [false] and the inlier
    count 0.  An iteration count that is zero or negative is not an error
    either: the estimator runs no trial, draws nothing from [rand()], and
    returns a plane. *)
Theorem nonpositive_parameters_are_not_rejected
    (eigen : Mat33 -> Vec3 * Mat33) (RAND_MAX : Z) (uninitialized : Plane)
    (fuel : nat) (pts : list Point3f) (plane : Plane) (threshold : F32.t)
    (k : Z) (g : rand_state) :
  (F32.leb threshold F32.zero = true ->
   let ret := PlanePointRANSACDifferences pts plane threshold in
   distances ret = map (point_plane_diff plane) (visited pts) /\
   isInliers ret = map (fun _ => false) (visited pts) /\
   inliersNum ret = 0)
  /\
  (k <= 0 ->
   candidates eigen RAND_MAX fuel pts threshold (Z.to_nat k) g
   = Returns ([], g) /\
   exists result : Plane,
     EstimatePlaneRANSAC eigen RAND_MAX uninitialized fuel pts threshold k g
     = Returns (result, g)).
Proof.
  split.
  - intros Hneg ret. subst ret.
    split; [apply classifier_distances |].
    now apply classifier_nonpositive_threshold.
  - intros Hk. split.
    + replace (Z.to_nat k) with 0%nat by lia. reflexivity.
    + eexists. now apply EstimatePlaneRANSAC_no_iterations.
Qed.

Lemma nonpositive_parameters_are_not_rejected_witness :
  F32.leb (F32.opp Examples.half) F32.zero = true /\
  -1 <= 0 /\
  inliersNum (PlanePointRANSACDifferences Examples.square_and_outlier
                Examples.plane_z0 (F32.opp Examples.half)) = 0 /\
  exists result : Plane,
    EstimatePlaneRANSAC Examples.eigen_axes Examples.RAND_MAX_glibc
      Examples.stale 12 Examples.square_and_outlier (F32.opp Examples.half)
      (-1) Examples.varied
    = Returns (result, Examples.varied).
Proof.
  assert (Hneg : F32.leb (F32.opp Examples.half) F32.zero = true)
    by (vm_compute; reflexivity).
  assert (Hk : -1 <= 0) by lia.
  split; [exact Hneg |]. split; [exact Hk |].
  destruct (nonpositive_parameters_are_not_rejected
              Examples.eigen_axes Examples.RAND_MAX_glibc Examples.stale 12
              Examples.square_and_outlier Examples.plane_z0
              (F32.opp Examples.half) (-1) Examples.varied)
    as [Hclass Hiter].
  split.
  - apply (Hclass Hneg).
  - apply (Hiter Hk).
Defined.

(** ** The random source *)

Lemma respects_ret {A : Type} (a : A) : respects_future (ret a).
Proof. intros g1 g2 H. cbn. repeat split; [lia | exact H]. Qed.

Lemma respects_throw {A : Type} (e : exception) : respects_future (@throw A e).
Proof. intros g1 g2 H. reflexivity. Qed.

Lemma respects_diverge {A : Type} : respects_future (@diverge A).
Proof. intros g1 g2 H. exact I. Qed.

Lemma respects_rand : respects_future rand.
Proof.
  intros g1 g2 H. cbn. split; [| split].
  - specialize (H 0%nat). now rewrite !Nat.add_0_r in H.
  - lia.
  - intros i. cbn. specialize (H (S i)). now rewrite <- !plus_n_Sm in H.
Qed.

Lemma respects_bind {A B : Type} (m : M A) (k : A -> M B) :
  respects_future m -> (forall a, respects_future (k a)) ->
  respects_future (bind m k).
Proof.
  intros Hm Hk g1 g2 H. unfold bind. specialize (Hm g1 g2 H).
  destruct (m g1) as [[a1 g1'] | e1 |], (m g2) as [[a2 g2'] | e2 |];
    cbn in Hm; try contradiction; try exact Hm.
  destruct Hm as (<- & Hpos & Hfut). specialize (Hk a1 g1' g2' Hfut).
  destruct (k a1 g1') as [[b1 g1''] | e1 |], (k a1 g2') as [[b2 g2''] | e2 |];
    cbn in Hk |- *; try contradiction; try exact Hk.
  destruct Hk as (<- & Hpos' & Hfut'). repeat split; [lia | exact Hfut'].
Qed.

Create HintDb respects.

#[local] Hint Resolve respects_ret respects_throw respects_diverge
  respects_rand : respects.

Lemma respects_vector_at {A : Type} (pts : list A) (index : Z) :
  respects_future (vector_at pts index).
Proof.
  unfold vector_at. destruct (index <? 0); auto with respects.
  destruct (nth_error pts (Z.to_nat index)); auto with respects.
Qed.

#[local] Hint Resolve respects_vector_at : respects.

(** One step through a [bind]. *)
Ltac respects_step :=
  apply respects_bind; [auto with respects | intros ?].

Section Determined.

Variable eigen : Mat33 -> Vec3 * Mat33.
Variable RAND_MAX : Z.
Variable uninitialized : Plane.

Lemma respects_while_index2 (fuel : nat) (num index1 index2 : Z) :
  respects_future (while_index2 RAND_MAX fuel num index1 index2).
Proof.
  revert index2. induction fuel as [| fuel IH]; intros index2;
    cbn [while_index2]; destruct (index2 =? index1); auto with respects.
  respects_step. apply IH.
Qed.

Lemma respects_while_index3 (fuel : nat) (num index1 index2 index3 : Z) :
  respects_future (while_index3 RAND_MAX fuel num index1 index2 index3).
Proof.
  revert index3. induction fuel as [| fuel IH]; intros index3;
    cbn [while_index3]; destruct ((index3 =? index1) || (index3 =? index2));
    auto with respects.
  respects_step. apply IH.
Qed.

Lemma respects_sample_indices (fuel : nat) (num : Z) :
  respects_future (sample_indices RAND_MAX fuel num).
Proof.
  unfold sample_indices. do 3 respects_step.
  apply respects_bind; [apply respects_while_index2 | intros ?].
  apply respects_bind; [apply respects_while_index3 | intros ?].
  auto with respects.
Qed.

Lemma respects_minimal_sample (pts : list Point3f) (idx : Z * Z * Z) :
  respects_future (minimal_sample pts idx).
Proof.
  destruct idx as [[index1 index2] index3]. unfold minimal_sample.
  do 3 respects_step. auto with respects.
Qed.

Lemma respects_trial_candidate (fuel : nat) (pts : list Point3f)
    (threshold : F32.t) :
  respects_future (trial_candidate eigen RAND_MAX fuel pts threshold).
Proof.
  unfold trial_candidate.
  apply respects_bind; [apply respects_sample_indices | intros ?].
  apply respects_bind; [apply respects_minimal_sample | intros ?].
  apply respects_ret.
Qed.

Lemma respects_trials (fuel : nat) (pts : list Point3f) (threshold : F32.t)
    (iters : nat) (best : best_state) :
  respects_future (trials eigen RAND_MAX fuel pts threshold iters best).
Proof.
  revert best. induction iters as [| iters IH]; intros best; cbn [trials].
  - apply respects_ret.
  - apply respects_bind; [| intros ?; apply IH].
    unfold trial. apply respects_bind; [apply respects_trial_candidate |].
    intros ?. apply respects_ret.
Qed.

Lemma respects_triples (fuel : nat) (num : Z) (iters : nat) :
  respects_future (triples RAND_MAX fuel num iters).
Proof.
  induction iters as [| iters IH]; cbn [triples].
  - apply respects_ret.
  - apply respects_bind; [apply respects_sample_indices | intros ?].
    apply respects_bind; [apply IH | intros ?]. apply respects_ret.
Qed.

Lemma respects_EstimatePlaneRANSAC (fuel : nat) (pts : list Point3f)
    (threshold : F32.t) (iterateNum : Z) :
  respects_future
    (EstimatePlaneRANSAC eigen RAND_MAX uninitialized fuel pts threshold
       iterateNum).
Proof.
  unfold EstimatePlaneRANSAC.
  apply respects_bind; [apply respects_trials | intros ?]. apply respects_ret.
Qed.

(** A call that returns leaves the generator advanced by at least three
    values for every iteration. *)
Lemma EstimatePlaneRANSAC_advances (fuel : nat) (pts : list Point3f)
    (threshold : F32.t) (k : Z) (g g' : rand_state) (plane : Plane) :
  EstimatePlaneRANSAC eigen RAND_MAX uninitialized fuel pts threshold k g
  = Returns (plane, g') ->
  rand_seq g' = rand_seq g /\
  (rand_pos g + 3 * Z.to_nat k <= rand_pos g')%nat.
Proof.
  rewrite EstimatePlaneRANSAC_select.
  destruct (candidates eigen RAND_MAX fuel pts threshold (Z.to_nat k) g)
    as [[cs g1] | e |] eqn:Hcs; try discriminate.
  cbv zeta. intros [= _ <-].
  apply candidates_later in Hcs. destruct Hcs as [[Hs _] Hp]. now split.
Qed.

End Determined.

Lemma respects_candidates (eigen : Mat33 -> Vec3 * Mat33) (RAND_MAX : Z)
    (fuel : nat) (pts : list Point3f) (threshold : F32.t) (iters : nat) :
  respects_future (candidates eigen RAND_MAX fuel pts threshold iters).
Proof.
  induction iters as [| iters IH]; cbn [candidates].
  - apply respects_ret.
  - apply respects_bind; [apply respects_trial_candidate | intros ?].
    apply respects_bind; [apply IH | intros ?]. apply respects_ret.
Qed.

(** Once a score exceeds the one the selection starts from, what plane it
    started from does not matter. *)
Lemma select_best_above (cs : list (Plane * Z)) (best1 best2 : best_state) :
  bestSampleInlierNum best1 = bestSampleInlierNum best2 ->
  (exists c, In c cs /\ bestSampleInlierNum best1 < snd c) ->
  select_best cs best1 = select_best cs best2.
Proof.
  revert best1 best2. induction cs as [| c0 cs IH];
    intros best1 best2 Heq (c & Hin & Hlt); [destruct Hin |].
  change (select_best (c0 :: cs) best1)
    with (select_best cs (update_best best1 (fst c0) (snd c0))).
  change (select_best (c0 :: cs) best2)
    with (select_best cs (update_best best2 (fst c0) (snd c0))).
  unfold update_best. rewrite <- Heq, Z.gtb_ltb.
  destruct (Z.ltb_spec (bestSampleInlierNum best1) (snd c0)) as [Hgt | Hle].
  - reflexivity.
  - apply IH; [exact Heq |]. exists c. split; [| exact Hlt].
    destruct Hin as [<- | Hin]; [lia | exact Hin].
Qed.

(** C8, as stated, fails: the estimator takes no generator and no seed.  Two
    calls in a row with the same points, threshold and iteration count draw
    from the one process-wide [rand()]: the first draws the indices 0, 1, 2,
    fits the plane [z = 0] and leaves the generator three values further;
    the second draws 3, 4, 5 and fits the plane [z = 10].  Both trials score
    3, so the planes are the same whatever the array [bestPlane] held: the
    second call is run with the array as the first call found it and with
    the array as the first call left it.  (The planes are those of the
    stand-in for [eigen]; for three points of equal [z] that are not on a
    line its answer, the normal along [z], is the least-squares one up to
    the sign.) *)
Lemma consecutive_calls_differ :
  let call (array : Plane) :=
    EstimatePlaneRANSAC Examples.eigen_axes Examples.RAND_MAX_glibc
      array 12 MoreExamples.two_levels Examples.half 1 in
  sample_indices Examples.RAND_MAX_glibc 12 6 MoreExamples.levels
  = Returns ((0, 1, 2), MoreExamples.levels_after_3) /\
  sample_indices Examples.RAND_MAX_glibc 12 6 MoreExamples.levels_after_3
  = Returns ((3, 4, 5), MoreExamples.levels_after_6) /\
  candidates Examples.eigen_axes Examples.RAND_MAX_glibc 12
    MoreExamples.two_levels Examples.half 1 MoreExamples.levels
  = Returns ([(MoreExamples.level_0, 3)], MoreExamples.levels_after_3) /\
  call Examples.stale MoreExamples.levels
  = Returns (MoreExamples.level_0, MoreExamples.levels_after_3) /\
  call Examples.stale MoreExamples.levels_after_3
  = Returns (MoreExamples.level_10, MoreExamples.levels_after_6) /\
  call MoreExamples.level_0 MoreExamples.levels_after_3
  = Returns (MoreExamples.level_10, MoreExamples.levels_after_6) /\
  MoreExamples.level_0 <> MoreExamples.level_10.
Proof.
  cbv zeta.
  split; [vm_compute; reflexivity |].
  split; [vm_compute; reflexivity |].
  split; [vm_compute; reflexivity |].
  split; [vm_compute; reflexivity |].
  split; [vm_compute; reflexivity |].
  split; [vm_compute; reflexivity |].
  discriminate.
Qed.

(** C8, amended. The estimator draws from the process-wide [rand()].  Its
    index triples, its candidates and their scores are determined by the
    points, the threshold, the iteration count and the values [rand()]
    returns from the start of the call on: two calls started where [rand()]
    is about to return the same values draw the same triples, go through the
    same candidates and end alike, with as many values consumed, whatever
    the array [bestPlane] holds in each of them; when some candidate scores
    above 0 they return the same plane; and a call that returns leaves the
    generator advanced by at least three values for every iteration. *)
Theorem EstimatePlaneRANSAC_determined_by_rand
    (eigen : Mat33 -> Vec3 * Mat33) (RAND_MAX : Z)
    (uninitialized1 uninitialized2 : Plane)
    (fuel : nat) (pts : list Point3f) (threshold : F32.t) (k : Z)
    (g1 g2 : rand_state) :
  same_future g1 g2 ->
  let call1 :=
    EstimatePlaneRANSAC eigen RAND_MAX uninitialized1 fuel pts threshold k g1 in
  let call2 :=
    EstimatePlaneRANSAC eigen RAND_MAX uninitialized2 fuel pts threshold k g2 in
  same_outcome g1 g2
    (triples RAND_MAX fuel (Int.of_size (length pts)) (Z.to_nat k) g1)
    (triples RAND_MAX fuel (Int.of_size (length pts)) (Z.to_nat k) g2) /\
  same_outcome g1 g2
    (candidates eigen RAND_MAX fuel pts threshold (Z.to_nat k) g1)
    (candidates eigen RAND_MAX fuel pts threshold (Z.to_nat k) g2) /\
  ends_alike g1 g2 call1 call2 /\
  (forall (cs : list (Plane * Z)) (g1' : rand_state),
      candidates eigen RAND_MAX fuel pts threshold (Z.to_nat k) g1
      = Returns (cs, g1') ->
      (exists c, In c cs /\ 0 < snd c) ->
      exists (plane : Plane) (g2' : rand_state),
        call1 = Returns (plane, g1') /\ call2 = Returns (plane, g2')) /\
  (forall (plane : Plane) (g' : rand_state),
      call1 = Returns (plane, g') ->
      rand_seq g' = rand_seq g1 /\
      (rand_pos g1 + 3 * Z.to_nat k <= rand_pos g')%nat).
Proof.
  intros Hfut call1 call2. subst call1 call2.
  pose proof (respects_candidates eigen RAND_MAX fuel pts threshold
                (Z.to_nat k) g1 g2 Hfut) as Hcs.
  split; [now apply respects_triples |].
  split; [exact Hcs |].
  rewrite !EstimatePlaneRANSAC_select.
  destruct (candidates eigen RAND_MAX fuel pts threshold (Z.to_nat k) g1)
    as [[cs1 g1'] | e1 |] eqn:E1;
    destruct (candidates eigen RAND_MAX fuel pts threshold (Z.to_nat k) g2)
      as [[cs2 g2'] | e2 |] eqn:E2;
    cbn in Hcs; try contradiction.
  - destruct Hcs as (<- & Hpos & Hfut'). cbv zeta.
    split; [split; assumption |]. split.
    + intros cs g [= <- <-] Hc.
      eexists _, g2'. split; [reflexivity |].
      rewrite (select_best_above cs1
                 {| bestSampleInlierNum := 0; bestPlane := uninitialized2 |}
                 {| bestSampleInlierNum := 0; bestPlane := uninitialized1 |});
        [reflexivity | reflexivity | exact Hc].
    + intros plane g' [= _ <-].
      apply candidates_later in E1. destruct E1 as [[Hs _] Hp]. now split.
  - split; [exact Hcs |]. split; intros; discriminate.
  - split; [exact I |]. split; intros; discriminate.
Qed.

Lemma varied_same_future : same_future Examples.varied Examples.varied_after_6.
Proof.
  intros i. cbn [Examples.varied Examples.varied_after_6 Examples.cycle
                  rand_seq rand_pos length].
  replace (6 + i)%nat with (i + 1 * 6)%nat by lia.
  now rewrite Nat.Div0.mod_add.
Qed.

Lemma EstimatePlaneRANSAC_determined_by_rand_witness :
  same_future Examples.varied Examples.varied_after_6 /\
  ends_alike Examples.varied Examples.varied_after_6
    (EstimatePlaneRANSAC Examples.eigen_axes Examples.RAND_MAX_glibc
       Examples.stale 12 Examples.square_and_outlier Examples.half 4
       Examples.varied)
    (EstimatePlaneRANSAC Examples.eigen_axes Examples.RAND_MAX_glibc
       Examples.plane_z0 12 Examples.square_and_outlier Examples.half 4
       Examples.varied_after_6).
Proof.
  split; [exact varied_same_future |].
  apply (EstimatePlaneRANSAC_determined_by_rand
           Examples.eigen_axes Examples.RAND_MAX_glibc
           Examples.stale Examples.plane_z0 12
           Examples.square_and_outlier Examples.half 4
           Examples.varied Examples.varied_after_6 varied_same_future).
Defined.

(** * Further properties *)

(** ** NaNs *)

Lemma mul_nan_l (prec emax : Z) (y : spec_float) : SFmul prec emax nan y = nan.
Proof. reflexivity. Qed.

Lemma mul_nan_r (prec emax : Z) (x : spec_float) : SFmul prec emax x nan = nan.
Proof. destruct x; reflexivity. Qed.

Lemma add_nan_l (prec emax : Z) (y : spec_float) : SFadd prec emax nan y = nan.
Proof. reflexivity. Qed.

Lemma add_nan_r (prec emax : Z) (x : spec_float) : SFadd prec emax x nan = nan.
Proof. destruct x; reflexivity. Qed.

Lemma div_nan_l (prec emax : Z) (y : spec_float) : SFdiv prec emax nan y = nan.
Proof. reflexivity. Qed.

Lemma ltb_nan_l (y : spec_float) : F32.ltb nan y = false.
Proof. reflexivity. Qed.

(** A NaN among the coordinates or the parameters makes the difference a
    NaN. *)
Lemma point_plane_diff_nan (plane : Plane) (pt : Point3f) :
  has_nan pt \/
  pA plane = nan \/ pB plane = nan \/ pC plane = nan \/ pD plane = nan ->
  point_plane_diff plane pt = nan.
Proof.
  unfold point_plane_diff, has_nan, F32.abs, F32.add, F32.mul.
  intros [[H | [H | H]] | [H | [H | [H | H]]]]; rewrite H;
    repeat first [ rewrite mul_nan_l | rewrite mul_nan_r
                 | rewrite add_nan_l | rewrite add_nan_r ];
    reflexivity.
Qed.

(** X1. A point with a NaN coordinate is never an inlier, and against a
    plane with a NaN parameter no point is: the distance stored is a NaN and
    the flag is [false], whatever the threshold. *)
Theorem nan_is_never_an_inlier
    (pts : list Point3f) (plane : Plane) (threshold : F32.t)
    (i : nat) (pt : Point3f) :
  fits_int pts ->
  nth_error pts i = Some pt ->
  has_nan pt \/
  pA plane = nan \/ pB plane = nan \/ pC plane = nan \/ pD plane = nan ->
  let ret := PlanePointRANSACDifferences pts plane threshold in
  nth_error (distances ret) i = Some nan /\
  nth_error (isInliers ret) i = Some false.
Proof.
  intros Hfit Hpt Hnan ret. subst ret.
  rewrite classifier_distances, classifier_isInliers, (visited_fits pts Hfit),
    !nth_error_map, Hpt.
  cbn [option_map]. unfold flag_of.
  rewrite (point_plane_diff_nan plane pt Hnan). split; reflexivity.
Qed.

Lemma nan_is_never_an_inlier_witness :
  fits_int MoreExamples.with_hole /\
  nth_error (isInliers (PlanePointRANSACDifferences MoreExamples.with_hole
                          Examples.plane_z0 Examples.ten)) 1
  = Some false.
Proof.
  assert (Hfit : fits_int MoreExamples.with_hole)
    by (unfold fits_int, Int.INT_MAX; simpl; lia).
  split; [exact Hfit |].
  apply (nan_is_never_an_inlier MoreExamples.with_hole Examples.plane_z0
           Examples.ten 1
           {| px := nan; py := F32.of_int 1; pz := F32.zero |} Hfit eq_refl).
  left. left. reflexivity.
Defined.

(** ** Bounds of the classification *)

(** X2. No distance is below zero, and the inlier count lies between 0 and
    the number of points, for every cloud, plane and threshold: the counter
    of the loop does not overflow. *)
Theorem classification_bounds
    (pts : list Point3f) (plane : Plane) (threshold : F32.t) :
  let ret := PlanePointRANSACDifferences pts plane threshold in
  Forall (fun d => F32.ltb d F32.zero = false) (distances ret) /\
  0 <= inliersNum ret <= Z.of_nat (length pts) /\
  inliersNum ret <= Int.INT_MAX.
Proof.
  cbv zeta. split; [| split].
  - rewrite classifier_distances. apply Forall_forall. intros d Hin.
    apply in_map_iff in Hin. destruct Hin as (pt & <- & _).
    unfold point_plane_diff. now apply ltb_abs_nonpositive.
  - rewrite classifier_inliersNum, classifier_isInliers.
    pose proof (count_true_le_length
                  (map (flag_of plane threshold) (visited pts))) as Hc.
    rewrite length_map in Hc. pose proof (visited_length_le pts). lia.
  - rewrite classifier_inliersNum, classifier_isInliers.
    pose proof (count_true_le_length
                  (map (flag_of plane threshold) (visited pts))) as Hc.
    rewrite length_map in Hc. pose proof (visited_fits_int pts). lia.
Qed.

(** ** Clouds put together, clouds reordered *)

Lemma fits_int_app {A : Type} (l1 l2 : list A) :
  fits_int (l1 ++ l2) -> fits_int l1 /\ fits_int l2.
Proof. unfold fits_int. rewrite length_app. lia. Qed.

(** X3. The classification of two clouds put one after the other is the two
    classifications put one after the other: distances and flags are
    appended and the inlier counts add up. *)
Theorem classification_of_appended_clouds
    (pts1 pts2 : list Point3f) (plane : Plane) (threshold : F32.t) :
  fits_int (pts1 ++ pts2) ->
  let r := PlanePointRANSACDifferences (pts1 ++ pts2) plane threshold in
  let r1 := PlanePointRANSACDifferences pts1 plane threshold in
  let r2 := PlanePointRANSACDifferences pts2 plane threshold in
  distances r = distances r1 ++ distances r2 /\
  isInliers r = isInliers r1 ++ isInliers r2 /\
  inliersNum r = inliersNum r1 + inliersNum r2.
Proof.
  intros Hfit. destruct (fits_int_app pts1 pts2 Hfit) as [H1 H2]. cbv zeta.
  rewrite !classifier_inliersNum, !classifier_distances, !classifier_isInliers,
    (visited_fits _ Hfit), (visited_fits _ H1), (visited_fits _ H2), !map_app.
  repeat split. rewrite count_true_app. lia.
Qed.

Lemma classification_of_appended_clouds_witness :
  fits_int (Examples.two_points ++ Examples.square_and_outlier) /\
  inliersNum (PlanePointRANSACDifferences
                (Examples.two_points ++ Examples.square_and_outlier)
                Examples.plane_z0 Examples.half)
  = inliersNum (PlanePointRANSACDifferences Examples.two_points
                  Examples.plane_z0 Examples.half)
    + inliersNum (PlanePointRANSACDifferences Examples.square_and_outlier
                    Examples.plane_z0 Examples.half).
Proof.
  assert (Hfit : fits_int (Examples.two_points ++ Examples.square_and_outlier))
    by (unfold fits_int, Int.INT_MAX; simpl; lia).
  split; [exact Hfit |].
  apply (classification_of_appended_clouds Examples.two_points
           Examples.square_and_outlier Examples.plane_z0 Examples.half Hfit).
Defined.

Lemma count_true_permutation (l l' : list bool) :
  Permutation l l' -> count_true l = count_true l'.
Proof.
  unfold count_true. induction 1 as [| b l l' _ IH | b c l | l l' l'' _ IH1 _ IH2].
  - reflexivity.
  - cbn. now rewrite IH.
  - cbn. destruct (bool_dec b true), (bool_dec c true); reflexivity.
  - congruence.
Qed.

Lemma fits_int_permutation {A : Type} (l l' : list A) :
  Permutation l l' -> fits_int l -> fits_int l'.
Proof. unfold fits_int. intros H. now rewrite (Permutation_length H). Qed.

(** X4. The order of the points does not matter to the consensus: a cloud
    and a reordering of it have the same inlier count, and their distances
    and their flags are reorderings of each other. *)
Theorem classification_of_reordered_cloud
    (pts pts' : list Point3f) (plane : Plane) (threshold : F32.t) :
  fits_int pts ->
  Permutation pts pts' ->
  let r := PlanePointRANSACDifferences pts plane threshold in
  let r' := PlanePointRANSACDifferences pts' plane threshold in
  inliersNum r = inliersNum r' /\
  Permutation (distances r) (distances r') /\
  Permutation (isInliers r) (isInliers r').
Proof.
  intros Hfit Hperm.
  pose proof (fits_int_permutation pts pts' Hperm Hfit) as Hfit'. cbv zeta.
  rewrite !classifier_inliersNum, !classifier_distances, !classifier_isInliers,
    (visited_fits _ Hfit), (visited_fits _ Hfit').
  split; [| split].
  - f_equal. apply count_true_permutation. now apply Permutation_map.
  - now apply Permutation_map.
  - now apply Permutation_map.
Qed.

Lemma classification_of_reordered_cloud_witness :
  fits_int Examples.square_and_outlier /\
  Permutation Examples.square_and_outlier (rev Examples.square_and_outlier) /\
  inliersNum (PlanePointRANSACDifferences Examples.square_and_outlier
                Examples.plane_z0 Examples.half)
  = inliersNum (PlanePointRANSACDifferences (rev Examples.square_and_outlier)
                  Examples.plane_z0 Examples.half).
Proof.
  assert (Hfit : fits_int Examples.square_and_outlier)
    by (unfold fits_int, Int.INT_MAX; simpl; lia).
  assert (Hperm : Permutation Examples.square_and_outlier
                    (rev Examples.square_and_outlier))
    by apply Permutation_rev.
  split; [exact Hfit |]. split; [exact Hperm |].
  apply (classification_of_reordered_cloud Examples.square_and_outlier
           (rev Examples.square_and_outlier) Examples.plane_z0 Examples.half
           Hfit Hperm).
Defined.

(** ** The consensus set *)

Lemma visited_In {A : Type} (pts : list A) (pt : A) :
  In pt (visited pts) -> In pt pts.
Proof.
  unfold visited. intros Hin.
  rewrite <- (firstn_skipn (Z.to_nat (Int.of_size (length pts))) pts).
  apply in_or_app. now left.
Qed.

Lemma filter_length_count {A : Type} (f : A -> bool) (l : list A) :
  length (filter f l) = count_true (map f l).
Proof.
  unfold count_true. induction l as [| a l IH]; cbn; [reflexivity |].
  destruct (f a); cbn; now rewrite IH.
Qed.

(** X5. The points the estimator collects for its refit are as many as the
    inlier count says; each of them is a point of the cloud whose
    difference is below the threshold; and, for a cloud whose size fits an
    [int], every such point of the cloud is collected. *)
Theorem inlier_points_are_the_inliers
    (pts : list Point3f) (plane : Plane) (threshold : F32.t) :
  let ret := PlanePointRANSACDifferences pts plane threshold in
  let inlierPts := inlier_points pts (isInliers ret) in
  Z.of_nat (length inlierPts) = inliersNum ret /\
  (forall pt, In pt inlierPts ->
     In pt pts /\ F32.ltb (point_plane_diff plane pt) threshold = true) /\
  (fits_int pts ->
   forall pt, In pt pts ->
     F32.ltb (point_plane_diff plane pt) threshold = true ->
     In pt inlierPts).
Proof.
  cbv zeta. rewrite inlier_points_filter, classifier_inliersNum,
    classifier_isInliers, filter_length_count.
  split; [reflexivity |]. split.
  - intros pt Hin. apply filter_In in Hin. destruct Hin as [Hin Hflag].
    split; [now apply visited_In | exact Hflag].
  - intros Hfit pt Hin Hflag. rewrite (visited_fits pts Hfit).
    apply filter_In. now split.
Qed.

Lemma inlier_points_are_the_inliers_witness :
  fits_int Examples.square_and_outlier /\
  In (Examples.pt 1 1 0)
    (inlier_points Examples.square_and_outlier
       (isInliers (PlanePointRANSACDifferences Examples.square_and_outlier
                     Examples.plane_z0 Examples.half))).
Proof.
  assert (Hfit : fits_int Examples.square_and_outlier)
    by (unfold fits_int, Int.INT_MAX; simpl; lia).
  split; [exact Hfit |].
  apply (inlier_points_are_the_inliers Examples.square_and_outlier
           Examples.plane_z0 Examples.half); [exact Hfit | | ].
  - cbn. tauto.
  - vm_compute. reflexivity.
Defined.

(** ** The sign of the normal *)

Section Opposites.

Variables prec emax : Z.

Lemma binary_round_aux_opp (s : bool) (m e : Z) (l : location) :
  binary_round_aux prec emax (negb s) m e l
  = SFopp (binary_round_aux prec emax s m e l).
Proof.
  unfold binary_round_aux.
  destruct (shr_fexp prec emax m e l) as [mrs' e'].
  destruct (shr_fexp prec emax _ e' loc_Exact) as [mrs'' e''].
  destruct (shr_m mrs''); try reflexivity.
  destruct (e'' <=? emax - prec); reflexivity.
Qed.

Lemma binary_round_opp (s : bool) (m : positive) (e : Z) :
  binary_round prec emax (negb s) m e = SFopp (binary_round prec emax s m e).
Proof.
  unfold binary_round. destruct (shl_align m e _) as [mz ez].
  apply binary_round_aux_opp.
Qed.

Lemma binary_normalize_opp (z e : Z) :
  opposite (binary_normalize prec emax z e false)
           (binary_normalize prec emax (- z) e false).
Proof.
  destruct z as [| m | m]; cbn [binary_normalize Z.opp].
  - right. split; exact I.
  - left. exact (binary_round_opp false m e).
  - left. exact (binary_round_opp true m e).
Qed.

Lemma mul_opp_l (x y : spec_float) :
  SFmul prec emax (SFopp x) y = SFopp (SFmul prec emax x y).
Proof.
  destruct x as [sx | sx | | sx mx ex], y as [sy | sy | | sy my ey]; cbn;
    try reflexivity;
    try (destruct sx, sy; reflexivity).
  replace (xorb (negb sx) sy) with (negb (xorb sx sy)) by (now destruct sx, sy).
  apply binary_round_aux_opp.
Qed.

Lemma opposite_opp (x : spec_float) : opposite x (SFopp x).
Proof. now left. Qed.

Lemma cond_Zopp_negb (s : bool) (z : Z) : cond_Zopp (negb s) z = - cond_Zopp s z.
Proof. destruct s; cbn; lia. Qed.

Lemma add_opp_opp (x y : spec_float) :
  opposite (SFadd prec emax x y) (SFadd prec emax (SFopp x) (SFopp y)).
Proof.
  destruct x as [sx | sx | | sx mx ex], y as [sy | sy | | sy my ey]; cbn;
    try (now left);
    try (destruct sx, sy; cbn; (now left) || (right; split; exact I)).
  rewrite !cond_Zopp_negb, <- Z.opp_add_distr.
  apply binary_normalize_opp.
Qed.

Lemma add_zero_l (s : bool) (y : spec_float) :
  ~ is_zero y -> SFadd prec emax (S754_zero s) y = y.
Proof. destruct y; cbn; try reflexivity. intros H. now destruct H. Qed.

Lemma add_zero_r (s : bool) (x : spec_float) :
  ~ is_zero x -> SFadd prec emax x (S754_zero s) = x.
Proof. destruct x; cbn; try reflexivity. intros H. now destruct H. Qed.

Lemma is_zero_dec (x : spec_float) : {is_zero x} + {~ is_zero x}.
Proof. destruct x; cbn; auto. Qed.

Lemma is_zero_opp (x : spec_float) : is_zero (SFopp x) <-> is_zero x.
Proof. destruct x; cbn; tauto. Qed.

Lemma add_zeros (x y : spec_float) :
  is_zero x -> is_zero y -> is_zero (SFadd prec emax x y).
Proof.
  destruct x as [sx | | |], y as [sy | | |]; cbn; try tauto.
  destruct sx, sy; cbn; tauto.
Qed.

(** Sums of opposite numbers are opposite. *)
Lemma add_opposite (x x' y y' : spec_float) :
  opposite x x' -> opposite y y' ->
  opposite (SFadd prec emax x y) (SFadd prec emax x' y').
Proof.
  intros [-> | [Zx Zx']] [-> | [Zy Zy']].
  - apply add_opp_opp.
  - destruct (is_zero_dec x) as [Zx | NZx].
    + right. split; apply add_zeros; auto. now apply is_zero_opp.
    + destruct y as [sy | | |], y' as [sy' | | |]; try contradiction.
      rewrite !add_zero_r; [now left | | exact NZx].
      now rewrite is_zero_opp.
  - destruct (is_zero_dec y) as [Zy | NZy].
    + right. split; apply add_zeros; auto. now apply is_zero_opp.
    + destruct x as [sx | | |], x' as [sx' | | |]; try contradiction.
      rewrite !add_zero_l; [now left | | exact NZy].
      now rewrite is_zero_opp.
  - right. split; now apply add_zeros.
Qed.

Lemma abs_opposite (x y : spec_float) : opposite x y -> SFabs x = SFabs y.
Proof.
  intros [-> | [Zx Zy]].
  - now destruct x.
  - destruct x, y; cbn in *; tauto.
Qed.

End Opposites.

Lemma point_plane_diff_flip (plane : Plane) (pt : Point3f) :
  point_plane_diff (flip plane) pt = point_plane_diff plane pt.
Proof.
  unfold point_plane_diff, flip, F32.abs, F32.add, F32.mul, F32.opp.
  cbn [pA pB pC pD]. symmetry. apply abs_opposite.
  repeat apply add_opposite; try (rewrite mul_opp_l); apply opposite_opp.
Qed.

(** X6. The sign of the normal is immaterial: a plane and the plane with all
    four parameters negated give the same classification, bit for bit. *)
Theorem classification_of_flipped_plane
    (pts : list Point3f) (plane : Plane) (threshold : F32.t) :
  PlanePointRANSACDifferences pts (flip plane) threshold
  = PlanePointRANSACDifferences pts plane threshold.
Proof.
  unfold PlanePointRANSACDifferences.
  assert (Hstep : forall ret pt,
             diff_step (flip plane) threshold ret pt
             = diff_step plane threshold ret pt).
  { intros ret pt. unfold diff_step. now rewrite point_plane_diff_flip. }
  generalize {| inliersNum := 0; distances := []; isInliers := [] |}.
  induction (visited pts) as [| pt l IH]; intros acc; cbn.
  - reflexivity.
  - now rewrite Hstep, IH.
Qed.

(** ** NaNs and empty clouds in the fitter *)

Section FitterNaN.

Variable eigen : Mat33 -> Vec3 * Mat33.

Lemma sum_loop_keeps_nan (l : list Point3f) (t : Point3d) :
  (dx t = nan -> dx (fold_left sum_step l t) = nan) /\
  (dy t = nan -> dy (fold_left sum_step l t) = nan) /\
  (dz t = nan -> dz (fold_left sum_step l t) = nan).
Proof.
  revert t. induction l as [| pt l IH]; intros t; cbn [fold_left].
  - tauto.
  - destruct (IH (sum_step t pt)) as (Hx & Hy & Hz).
    repeat split; intros H; [apply Hx | apply Hy | apply Hz];
      cbn; rewrite H; reflexivity.
Qed.

Lemma sum_loop_meets_nan (l : list Point3f) (t : Point3d) (pt : Point3f) :
  In pt l ->
  (px pt = nan -> dx (fold_left sum_step l t) = nan) /\
  (py pt = nan -> dy (fold_left sum_step l t) = nan) /\
  (pz pt = nan -> dz (fold_left sum_step l t) = nan).
Proof.
  revert t. induction l as [| pt' l IH]; intros t Hin; [destruct Hin |].
  cbn [fold_left]. destruct Hin as [-> | Hin]; [| now apply IH].
  destruct (sum_loop_keeps_nan l (sum_step t pt)) as (Hx & Hy & Hz).
  repeat split; intros H; [apply Hx | apply Hy | apply Hz];
    cbn; rewrite H; apply add_nan_r.
Qed.

Lemma plane_offset_nan (A B C : F32.t) (t : Point3d) :
  dx t = nan \/ dy t = nan \/ dz t = nan -> plane_offset A B C t = nan.
Proof.
  unfold plane_offset, F64.add, F64.mul, F64.opp.
  intros [H | [H | H]]; rewrite H;
    repeat first [ rewrite mul_nan_l | rewrite mul_nan_r
                 | rewrite add_nan_l | rewrite add_nan_r ];
    reflexivity.
Qed.

Lemma centre_of_gravity_nan (pts : list Point3f) (pt : Point3f) :
  In pt (visited pts) -> has_nan pt ->
  let t := centre_of_gravity pts in
  dx t = nan \/ dy t = nan \/ dz t = nan.
Proof.
  intros Hin Hnan. cbv zeta. unfold centre_of_gravity, sum_points.
  cbn [dx dy dz]. fold sum_step.
  destruct (sum_loop_meets_nan (visited pts)
              {| dx := F64.zero; dy := F64.zero; dz := F64.zero |} pt Hin)
    as (Hx & Hy & Hz).
  unfold F64.div.
  destruct Hnan as [H | [H | H]];
    [left; rewrite (Hx H) | right; left; rewrite (Hy H)
    | right; right; rewrite (Hz H)]; reflexivity.
Qed.

Lemma EstimatePlaneOptimal_offset_nan (pts : list Point3f) :
  (let t := centre_of_gravity pts in
   dx t = nan \/ dy t = nan \/ dz t = nan) ->
  pD (EstimatePlaneOptimal eigen pts) = nan.
Proof.
  cbv zeta. intros H. unfold EstimatePlaneOptimal.
  destruct (eigen _) as [evals evecs]. cbn [pD].
  now apply plane_offset_nan.
Qed.

Lemma EstimatePlaneOptimal_empty : pD (EstimatePlaneOptimal eigen []) = nan.
Proof. apply EstimatePlaneOptimal_offset_nan. left. reflexivity. Qed.

End FitterNaN.

(** X8. The fitter does not reject what it cannot fit: for the empty cloud,
    whose centre of gravity is 0/0, and for a cloud with a NaN among its
    coordinates, it returns a plane whose [D] is a NaN, whatever [eigen]
    answers. *)
Theorem EstimatePlaneOptimal_returns_nan_offset
    (eigen : Mat33 -> Vec3 * Mat33) (pts : list Point3f) :
  fits_int pts ->
  pts = [] \/ (exists pt, In pt pts /\ has_nan pt) ->
  pD (EstimatePlaneOptimal eigen pts) = nan.
Proof.
  intros Hfit [-> | (pt & Hin & Hnan)].
  - apply EstimatePlaneOptimal_empty.
  - apply EstimatePlaneOptimal_offset_nan.
    apply centre_of_gravity_nan with pt; [| exact Hnan].
    now rewrite (visited_fits pts Hfit).
Qed.

Lemma EstimatePlaneOptimal_returns_nan_offset_witness :
  fits_int MoreExamples.with_hole /\
  (MoreExamples.with_hole = [] \/
   exists pt, In pt MoreExamples.with_hole /\ has_nan pt) /\
  pD (EstimatePlaneOptimal Examples.eigen_axes MoreExamples.with_hole) = nan.
Proof.
  assert (Hfit : fits_int MoreExamples.with_hole)
    by (unfold fits_int, Int.INT_MAX; simpl; lia).
  assert (Hnan : MoreExamples.with_hole = [] \/
                 exists pt, In pt MoreExamples.with_hole /\ has_nan pt).
  { right. exists {| px := nan; py := F32.of_int 1; pz := F32.zero |}.
    split; [cbn; tauto | left; reflexivity]. }
  split; [exact Hfit |]. split; [exact Hnan |].
  apply (EstimatePlaneOptimal_returns_nan_offset Examples.eigen_axes
           MoreExamples.with_hole Hfit Hnan).
Defined.

(** ** A consensus set without points *)

Lemma ltb_nan_r (x : spec_float) : F32.ltb x nan = false.
Proof. destruct x; reflexivity. Qed.

Lemma filter_none {A : Type} (f : A -> bool) (l : list A) :
  (forall a, f a = false) -> filter f l = [].
Proof.
  intros Hf. induction l as [| a l IH]; cbn; [reflexivity |].
  now rewrite (Hf a).
Qed.

(** X9. With a threshold that is zero, negative or a NaN no point is ever an
    inlier, and the estimator refits on no point at all: whenever it
    returns, its plane is the one the fitter gives for the empty cloud,
    whose [D] is a NaN, whatever the points and the values of [rand()]. *)
Theorem EstimatePlaneRANSAC_without_consensus
    (eigen : Mat33 -> Vec3 * Mat33) (RAND_MAX : Z) (uninitialized : Plane)
    (fuel : nat) (pts : list Point3f) (threshold : F32.t) (k : Z)
    (g g' : rand_state) (plane : Plane) :
  F32.leb threshold F32.zero = true \/ threshold = nan ->
  EstimatePlaneRANSAC eigen RAND_MAX uninitialized fuel pts threshold k g
  = Returns (plane, g') ->
  plane = EstimatePlaneOptimal eigen [] /\ pD plane = nan.
Proof.
  intros Hthr. rewrite EstimatePlaneRANSAC_select.
  destruct (candidates eigen RAND_MAX fuel pts threshold (Z.to_nat k) g)
    as [[cs g1] | e |]; try discriminate.
  cbv zeta. intros [= <- _].
  rewrite filter_none.
  - split; [reflexivity | apply EstimatePlaneOptimal_empty].
  - intros pt. unfold flag_of. destruct Hthr as [Hneg | ->].
    + unfold point_plane_diff. now apply ltb_abs_nonpositive.
    + apply ltb_nan_r.
Qed.

Lemma EstimatePlaneRANSAC_without_consensus_witness :
  let plane0 :=
    {| pA := F32.zero; pB := F32.zero; pC := F32.of_int 1; pD := nan |} in
  let g12 := {| rand_seq := rand_seq Examples.varied; rand_pos := 12 |} in
  (F32.leb (F32.opp Examples.half) F32.zero = true
   \/ F32.opp Examples.half = nan) /\
  EstimatePlaneRANSAC Examples.eigen_axes Examples.RAND_MAX_glibc
    Examples.stale 12 Examples.square_and_outlier (F32.opp Examples.half) 4
    Examples.varied
  = Returns (plane0, g12) /\
  pD plane0 = nan.
Proof.
  intros plane0 g12.
  assert (Hthr : F32.leb (F32.opp Examples.half) F32.zero = true
                 \/ F32.opp Examples.half = nan)
    by (left; vm_compute; reflexivity).
  assert (Hrun : EstimatePlaneRANSAC Examples.eigen_axes Examples.RAND_MAX_glibc
                   Examples.stale 12 Examples.square_and_outlier
                   (F32.opp Examples.half) 4 Examples.varied
                 = Returns (plane0, g12))
    by (vm_compute; reflexivity).
  split; [exact Hthr |]. split; [exact Hrun |].
  apply (EstimatePlaneRANSAC_without_consensus _ _ _ _ _ _ _ _ _ _ Hthr Hrun).
Defined.

(** ** The indices of a trial *)

(** X10. The index loops of a trial raise no exception, and when they end
    the three indices are pairwise distinct, each is the index some value
    of [rand()] gave, and the generator has moved on by at least three
    values within the same sequence. *)
Theorem sample_indices_are_distinct
    (RAND_MAX : Z) (fuel : nat) (num : Z) (g : rand_state) :
  (forall e, sample_indices RAND_MAX fuel num g <> Throws e) /\
  (forall index1 index2 index3 g',
      sample_indices RAND_MAX fuel num g
      = Returns ((index1, index2, index3), g') ->
      index1 <> index2 /\ index1 <> index3 /\ index2 <> index3 /\
      rand_seq g' = rand_seq g /\ (rand_pos g + 3 <= rand_pos g')%nat /\
      forall index, index = index1 \/ index = index2 \/ index = index3 ->
        exists q : nat, (rand_pos g <= q)%nat /\
                        index = drawn_index RAND_MAX num g q).
Proof.
  split.
  - intros e. apply sample_indices_no_throw.
  - intros index1 index2 index3 g' H.
    apply sample_indices_returns in H.
    destruct H as ([Hseq _] & Hpos & H12 & H13 & H23 & Hsrc).
    repeat split; assumption.
Qed.

(** ** The exception of [pts.at] *)

Lemma vector_at_throws {A : Type} (pts : list A) (index : Z) (g : rand_state)
    (e : exception) :
  vector_at pts index g = Throws e ->
  ~ 0 <= index < Z.of_nat (length pts).
Proof.
  intros H Hin. destruct (vector_at_in_range pts index g Hin) as (pt & E).
  congruence.
Qed.

Lemma minimal_sample_throws (pts : list Point3f) (index1 index2 index3 : Z)
    (g : rand_state) (e : exception) :
  minimal_sample pts (index1, index2, index3) g = Throws e ->
  exists index, (index = index1 \/ index = index2 \/ index = index3) /\
                ~ 0 <= index < Z.of_nat (length pts).
Proof.
  intros H.
  destruct (Z_lt_dec index1 0) as [L1 | L1];
    [exists index1; split; [tauto | lia] |].
  destruct (Z_lt_dec index1 (Z.of_nat (length pts))) as [U1 | U1];
    [| exists index1; split; [tauto | lia]].
  destruct (Z_lt_dec index2 0) as [L2 | L2];
    [exists index2; split; [tauto | lia] |].
  destruct (Z_lt_dec index2 (Z.of_nat (length pts))) as [U2 | U2];
    [| exists index2; split; [tauto | lia]].
  destruct (Z_lt_dec index3 0) as [L3 | L3];
    [exists index3; split; [tauto | lia] |].
  destruct (Z_lt_dec index3 (Z.of_nat (length pts))) as [U3 | U3];
    [| exists index3; split; [tauto | lia]].
  destruct (minimal_sample_total pts index1 index2 index3 g) as (sample & E);
    try lia.
  congruence.
Qed.

Section Exceptions.

Variable eigen : Mat33 -> Vec3 * Mat33.
Variable RAND_MAX : Z.
Variable uninitialized : Plane.

(** The index a loop ends with is the one it was entered with, no value of
    [rand()] consumed, or the index of a value consumed by the loop. *)
Lemma while_index2_source (fuel : nat) (num index1 index2 : Z)
    (g g' : rand_state) (i2 : Z) :
  while_index2 RAND_MAX fuel num index1 index2 g = Returns (i2, g') ->
  (i2 = index2 /\ g' = g) \/
  exists q : nat, (rand_pos g <= q < rand_pos g')%nat /\
                  i2 = drawn_index RAND_MAX num g q.
Proof.
  revert index2 g. induction fuel as [| fuel IH]; intros index2 g;
    cbn [while_index2]; destruct (index2 =? index1); try discriminate;
    try (unfold ret; intros [= <- <-]; now left).
  unfold bind. rewrite rand_returns. intros H. apply IH in H. right.
  destruct H as [[-> ->] | (q & Hq & ->)].
  - exists (rand_pos g). cbn. split; [lia | reflexivity].
  - exists q. cbn in Hq. split; [lia | reflexivity].
Qed.

Lemma while_index3_source (fuel : nat) (num index1 index2 index3 : Z)
    (g g' : rand_state) (i3 : Z) :
  while_index3 RAND_MAX fuel num index1 index2 index3 g = Returns (i3, g') ->
  (i3 = index3 /\ g' = g) \/
  exists q : nat, (rand_pos g <= q < rand_pos g')%nat /\
                  i3 = drawn_index RAND_MAX num g q.
Proof.
  revert index3 g. induction fuel as [| fuel IH]; intros index3 g;
    cbn [while_index3];
    destruct ((index3 =? index1) || (index3 =? index2)); try discriminate;
    try (unfold ret; intros [= <- <-]; now left).
  unfold bind. rewrite rand_returns. intros H. apply IH in H. right.
  destruct H as [[-> ->] | (q & Hq & ->)].
  - exists (rand_pos g). cbn. split; [lia | reflexivity].
  - exists q. cbn in Hq. split; [lia | reflexivity].
Qed.

(** Each index of a trial is the index of a value of [rand()] consumed by
    that trial. *)
Lemma sample_indices_source (fuel : nat) (num : Z) (g g' : rand_state)
    (index1 index2 index3 : Z) :
  sample_indices RAND_MAX fuel num g = Returns ((index1, index2, index3), g') ->
  forall index, index = index1 \/ index = index2 \/ index = index3 ->
    exists q : nat, (rand_pos g <= q < rand_pos g')%nat /\
                    index = drawn_index RAND_MAX num g q.
Proof.
  rewrite sample_indices_unfold. cbv zeta.
  set (g3 := {| rand_seq := rand_seq g; rand_pos := S (S (S (rand_pos g))) |}).
  assert (Hg3 : later g g3) by (split; cbn; [reflexivity | lia]).
  intros H.
  apply bind_returns in H. destruct H as (i2 & g4 & H2 & H).
  apply bind_returns in H. destruct H as (i3 & g5 & H3 & H).
  unfold ret in H. injection H as <- <- <- <-.
  pose proof (while_index2_returns _ _ _ _ _ _ _ _ H2) as (L2 & _).
  pose proof (while_index3_returns _ _ _ _ _ _ _ _ _ H3) as (L3 & _).
  apply while_index2_source in H2. apply while_index3_source in H3.
  assert (P4 : (rand_pos g3 <= rand_pos g4)%nat) by apply L2.
  assert (P5 : (rand_pos g4 <= rand_pos g5)%nat) by apply L3.
  cbn in P4.
  intros index [-> | [-> | ->]].
  - exists (rand_pos g). split; [lia | reflexivity].
  - destruct H2 as [[-> _] | (q & Hq & ->)].
    + exists (S (rand_pos g)). split; [lia | reflexivity].
    + exists q. cbn in Hq. split; [lia |].
      apply (drawn_index_later RAND_MAX num g g3 q Hg3).
  - destruct H3 as [[-> _] | (q & Hq & ->)].
    + exists (S (S (rand_pos g))). split; [lia | reflexivity].
    + exists q. split; [lia |].
      apply (drawn_index_later RAND_MAX num g g4 q).
      eauto using later_trans.
Qed.

(** The trial in which the loop leaves by the exception. *)
Lemma candidates_throws (fuel : nat) (pts : list Point3f) (threshold : F32.t)
    (iters : nat) (g : rand_state) (e : exception) :
  candidates eigen RAND_MAX fuel pts threshold iters g = Throws e ->
  exists (done : nat) (cs : list (Plane * Z)) (g0 g1 : rand_state)
         (index1 index2 index3 index : Z) (q : nat),
    (done < iters)%nat /\
    candidates eigen RAND_MAX fuel pts threshold done g = Returns (cs, g0) /\
    sample_indices RAND_MAX fuel (Int.of_size (length pts)) g0
    = Returns ((index1, index2, index3), g1) /\
    (index = index1 \/ index = index2 \/ index = index3) /\
    ~ 0 <= index < Z.of_nat (length pts) /\
    (rand_pos g0 <= q < rand_pos g1)%nat /\
    index = drawn_index RAND_MAX (Int.of_size (length pts)) g q.
Proof.
  revert g e. induction iters as [| iters IH]; intros g e; cbn [candidates];
    [discriminate |].
  unfold bind at 1.
  destruct (trial_candidate eigen RAND_MAX fuel pts threshold g)
    as [[c gA] | e1 |] eqn:Hc; try discriminate.
  - unfold bind.
    destruct (candidates eigen RAND_MAX fuel pts threshold iters gA)
      as [[cs' g2] | e2 |] eqn:Hcs; try discriminate.
    intros _.
    destruct (IH gA e2 Hcs)
      as (done & cs & g0 & g1 & i1 & i2 & i3 & index & q
          & Hdone & Hrun & Hs & Hi & Hout & Hq & Hsrc).
    pose proof (trial_candidate_later _ _ _ _ _ _ _ _ Hc) as (Hl & _).
    exists (S done), (c :: cs), g0, g1, i1, i2, i3, index, q.
    split; [lia |]. split.
    { cbn [candidates].
      rewrite (bind_of_returns _ _ _ _ _ Hc), (bind_of_returns _ _ _ _ _ Hrun).
      reflexivity. }
    split; [exact Hs |]. split; [exact Hi |]. split; [exact Hout |].
    split; [exact Hq |].
    now rewrite <- (drawn_index_later RAND_MAX _ g gA q Hl).
  - intros _. unfold trial_candidate in Hc. unfold bind at 1 in Hc.
    destruct (sample_indices RAND_MAX fuel (Int.of_size (length pts)) g)
      as [[[[i1 i2] i3] g1] | e3 |] eqn:Hs; try discriminate.
    + unfold bind in Hc.
      destruct (minimal_sample pts (i1, i2, i3) g1)
        as [[sample g2] | e4 |] eqn:Hm; try discriminate.
      apply minimal_sample_throws in Hm. destruct Hm as (index & Hi & Hout).
      destruct (sample_indices_source _ _ _ _ _ _ _ Hs index Hi)
        as (q & Hq & Hsrc).
      exists 0%nat, [], g, g1, i1, i2, i3, index, q.
      split; [lia |]. split; [reflexivity |]. tauto.
    + now apply sample_indices_no_throw in Hs.
Qed.

End Exceptions.

(** X11. When the estimator leaves by the [std::out_of_range] of [pts.at],
    the trials before the failing one have all completed, and the failing
    trial has ended its index loops with three indices one of which lies
    outside [0, n) and is the index of a value of [rand()] consumed by that
    trial. *)
Theorem EstimatePlaneRANSAC_throws_on_a_drawn_index
    (eigen : Mat33 -> Vec3 * Mat33) (RAND_MAX : Z) (uninitialized : Plane)
    (fuel : nat) (pts : list Point3f) (threshold : F32.t) (k : Z)
    (g : rand_state) :
  EstimatePlaneRANSAC eigen RAND_MAX uninitialized fuel pts threshold k g
  = Throws out_of_range ->
  exists (done : nat) (cs : list (Plane * Z)) (g0 g1 : rand_state)
         (index1 index2 index3 index : Z) (q : nat),
    Z.of_nat done < k /\
    candidates eigen RAND_MAX fuel pts threshold done g = Returns (cs, g0) /\
    sample_indices RAND_MAX fuel (Int.of_size (length pts)) g0
    = Returns ((index1, index2, index3), g1) /\
    (index = index1 \/ index = index2 \/ index = index3) /\
    ~ 0 <= index < Z.of_nat (length pts) /\
    (rand_pos g0 <= q < rand_pos g1)%nat /\
    index = drawn_index RAND_MAX (Int.of_size (length pts)) g q.
Proof.
  rewrite EstimatePlaneRANSAC_select.
  destruct (candidates eigen RAND_MAX fuel pts threshold (Z.to_nat k) g)
    as [[cs g1] | e1 |] eqn:Hcs; try discriminate.
  intros _. apply candidates_throws in Hcs.
  destruct Hcs as (done & cs & g0 & g1 & i1 & i2 & i3 & index & q
                   & Hdone & Hrest).
  exists done, cs, g0, g1, i1, i2, i3, index, q.
  split; [lia | exact Hrest].
Qed.

Lemma EstimatePlaneRANSAC_throws_on_a_drawn_index_witness :
  EstimatePlaneRANSAC Examples.eigen_axes Examples.RAND_MAX_glibc
    Examples.stale 12 Examples.square_and_outlier Examples.half 1
    Examples.top_first
  = Throws out_of_range /\
  exists (index : Z) (q : nat),
    ~ 0 <= index < Z.of_nat (length Examples.square_and_outlier) /\
    index = drawn_index Examples.RAND_MAX_glibc
              (Int.of_size (length Examples.square_and_outlier))
              Examples.top_first q.
Proof.
  assert (Hrun : EstimatePlaneRANSAC Examples.eigen_axes Examples.RAND_MAX_glibc
                   Examples.stale 12 Examples.square_and_outlier Examples.half 1
                   Examples.top_first
                 = Throws out_of_range) by reflexivity.
  split; [exact Hrun |].
  destruct (EstimatePlaneRANSAC_throws_on_a_drawn_index _ _ _ _ _ _ _ _ Hrun)
    as (done & cs & g0 & g1 & i1 & i2 & i3 & index & q
        & _ & _ & _ & _ & Hout & _ & Hsrc).
  exists index, q. split; assumption.
Defined.

(** ** Best score and best plane *)

Lemma inliersNum_range (pts : list Point3f) (plane : Plane) (threshold : F32.t) :
  0 <= inliersNum (PlanePointRANSACDifferences pts plane threshold)
    <= Z.of_nat (length pts).
Proof.
  rewrite classifier_inliersNum, classifier_isInliers.
  pose proof (count_true_le_length
                (map (flag_of plane threshold) (visited pts))) as Hc.
  rewrite length_map in Hc. pose proof (visited_length_le pts). lia.
Qed.

Lemma update_best_in_sync (pts : list Point3f) (threshold : F32.t)
    (best : best_state) (samplePlane : Plane) :
  in_sync pts threshold best ->
  in_sync pts threshold
    (update_best best samplePlane
       (inliersNum (PlanePointRANSACDifferences pts samplePlane threshold))).
Proof.
  intros Hbest. unfold update_best. rewrite Z.gtb_ltb.
  destruct (Z.ltb_spec (bestSampleInlierNum best)
              (inliersNum (PlanePointRANSACDifferences pts samplePlane threshold)));
    [| exact Hbest].
  split; cbn [bestSampleInlierNum bestPlane].
  - apply inliersNum_range.
  - reflexivity.
Qed.

Lemma select_best_in_sync (eigen : Mat33 -> Vec3 * Mat33)
    (pts : list Point3f) (threshold : F32.t)
    (cs : list (Plane * Z)) (best : best_state) :
  Forall (is_candidate eigen pts threshold) cs ->
  in_sync pts threshold best ->
  in_sync pts threshold (select_best cs best).
Proof.
  intros Hcs. revert best.
  induction Hcs as [| c cs [_ Hc] _ IH]; intros best Hbest; [exact Hbest |].
  apply (IH (update_best best (fst c) (snd c))).
  rewrite Hc. now apply update_best_in_sync.
Qed.

(** X13. Through the loop the best score and the best plane stay together:
    when the trials return, the score recorded is between 0 and the number
    of points, and if it is positive it is the inlier count of the cloud
    against the plane recorded, so that the refit is made on exactly that
    many points. *)
Theorem trials_keep_score_and_plane_in_sync
    (eigen : Mat33 -> Vec3 * Mat33) (RAND_MAX : Z) (uninitialized : Plane)
    (fuel : nat) (pts : list Point3f) (threshold : F32.t) (iters : nat)
    (g g' : rand_state) (best : best_state) :
  trials eigen RAND_MAX fuel pts threshold iters
    {| bestSampleInlierNum := 0; bestPlane := uninitialized |} g
  = Returns (best, g') ->
  0 <= bestSampleInlierNum best <= Z.of_nat (length pts) /\
  (0 < bestSampleInlierNum best ->
   let bestResult :=
     PlanePointRANSACDifferences pts (bestPlane best) threshold in
   inliersNum bestResult = bestSampleInlierNum best /\
   Z.of_nat (length (inlier_points pts (isInliers bestResult)))
   = bestSampleInlierNum best).
Proof.
  rewrite trials_select.
  destruct (candidates eigen RAND_MAX fuel pts threshold iters g)
    as [[cs g1] | e |] eqn:Hcs; try discriminate.
  intros [= <- _].
  assert (Hsync : in_sync pts threshold
                    (select_best cs {| bestSampleInlierNum := 0;
                                       bestPlane := uninitialized |})).
  { apply (select_best_in_sync eigen).
    - eapply candidates_are_candidates, Hcs.
    - split; cbn; lia. }
  destruct Hsync as [Hrange Hpos]. split; [exact Hrange |].
  intros H. cbv zeta. specialize (Hpos H). split; [now symmetry |].
  rewrite inlier_points_filter, filter_length_count, <- classifier_isInliers,
    <- classifier_inliersNum.
  now symmetry.
Qed.

Lemma trials_keep_score_and_plane_in_sync_witness :
  let best4 :=
    {| bestSampleInlierNum := 4;
       bestPlane := {| pA := F32.zero; pB := F32.zero; pC := F32.of_int 1;
                       pD := S754_zero true |} |} in
  let g12 := {| rand_seq := rand_seq Examples.varied; rand_pos := 12 |} in
  trials Examples.eigen_axes Examples.RAND_MAX_glibc 12
    Examples.square_and_outlier Examples.half 4
    {| bestSampleInlierNum := 0; bestPlane := Examples.stale |}
    Examples.varied
  = Returns (best4, g12) /\
  0 <= bestSampleInlierNum best4
    <= Z.of_nat (length Examples.square_and_outlier).
Proof.
  intros best4 g12.
  assert (Hrun : trials Examples.eigen_axes Examples.RAND_MAX_glibc 12
                   Examples.square_and_outlier Examples.half 4
                   {| bestSampleInlierNum := 0; bestPlane := Examples.stale |}
                   Examples.varied
                 = Returns (best4, g12))
    by (vm_compute; reflexivity).
  split; [exact Hrun |].
  apply (trials_keep_score_and_plane_in_sync _ _ _ _ _ _ _ _ _ _ Hrun).
Defined.

(** ** The driver *)

Section DriverRuns.

Variable eigen : Mat33 -> Vec3 * Mat33.
Variable RAND_MAX : Z.
Variable uninitialized : Plane.

(** The driver ends as the estimator does, and classifies against its
    plane. *)
Lemma findDifferences_select (fuel : nat) (points : list Point3f)
    (threshold : F32.t) (iter : Z) (g : rand_state) :
  findDifferences eigen RAND_MAX uninitialized fuel points threshold iter g
  = match EstimatePlaneRANSAC eigen RAND_MAX uninitialized fuel points
            threshold iter g with
    | Returns (planeParams, g') =>
        Returns (([WholeDataFit (EstimatePlaneOptimal eigen points);
                   RANSACFit planeParams],
                  PlanePointRANSACDifferences points planeParams threshold),
                 g')
    | Throws e => Throws e
    | Diverges => Diverges
    end.
Proof.
  unfold findDifferences, bind.
  destruct (EstimatePlaneRANSAC eigen RAND_MAX uninitialized fuel points
              threshold iter g) as [[planeParams g'] | e |]; reflexivity.
Qed.

Lemma EstimatePlaneRANSAC_total (fuel : nat) (pts : list Point3f)
    (threshold : F32.t) (k : Z) (g : rand_state) :
  indices_in_range RAND_MAX (Int.of_size (length pts)) g ->
  indices_vary RAND_MAX fuel (Int.of_size (length pts)) g ->
  exists (plane : Plane) (g' : rand_state),
    EstimatePlaneRANSAC eigen RAND_MAX uninitialized fuel pts threshold k g
    = Returns (plane, g').
Proof.
  intros Hr Hv. rewrite EstimatePlaneRANSAC_select.
  destruct (candidates_total eigen RAND_MAX fuel pts threshold (Z.to_nat k) g
              Hr Hv) as (cs & g' & ->).
  now eexists _, _.
Qed.

Lemma EstimatePlaneRANSAC_no_consensus (fuel : nat) (pts : list Point3f)
    (threshold : F32.t) (k : Z) (g g' : rand_state) (plane : Plane) :
  F32.leb threshold F32.zero = true \/ threshold = nan ->
  EstimatePlaneRANSAC eigen RAND_MAX uninitialized fuel pts threshold k g
  = Returns (plane, g') ->
  pD plane = nan.
Proof.
  intros Hthr. rewrite EstimatePlaneRANSAC_select.
  destruct (candidates eigen RAND_MAX fuel pts threshold (Z.to_nat k) g)
    as [[cs g1] | e |]; try discriminate.
  cbv zeta. intros [= <- _].
  rewrite filter_none; [apply EstimatePlaneOptimal_empty |].
  intros pt. unfold flag_of. destruct Hthr as [Hneg | ->].
  - unfold point_plane_diff. now apply ltb_abs_nonpositive.
  - apply ltb_nan_r.
Qed.

End DriverRuns.

(** X14. When the driver returns it has printed two planes, the fit of the
    whole data and then the robust fit, and its differences are those of
    the points to the robust fit: index-aligned distances and flags, and the
    number of [true] flags as the count.  It does return when the values of
    [rand()] give indices in range that vary enough for the index loops to
    end. *)
Theorem findDifferences_classifies_against_the_robust_fit
    (eigen : Mat33 -> Vec3 * Mat33) (RAND_MAX : Z) (uninitialized : Plane)
    (fuel : nat) (points : list Point3f) (threshold : F32.t) (iter : Z)
    (g : rand_state) :
  fits_int points ->
  (forall (out : list printed) (differences : RANSACDiffs) (g' : rand_state),
      findDifferences eigen RAND_MAX uninitialized fuel points threshold iter g
      = Returns ((out, differences), g') ->
      exists planeParams : Plane,
        EstimatePlaneRANSAC eigen RAND_MAX uninitialized fuel points
          threshold iter g
        = Returns (planeParams, g') /\
        out = [WholeDataFit (EstimatePlaneOptimal eigen points);
               RANSACFit planeParams] /\
        distances differences = map (point_plane_diff planeParams) points /\
        isInliers differences
        = map (fun pt => F32.ltb (point_plane_diff planeParams pt) threshold)
            points /\
        inliersNum differences
        = Z.of_nat (count_true (isInliers differences)))
  /\
  (indices_in_range RAND_MAX (Z.of_nat (length points)) g ->
   indices_vary RAND_MAX fuel (Z.of_nat (length points)) g ->
   exists (result : list printed * RANSACDiffs) (g' : rand_state),
     findDifferences eigen RAND_MAX uninitialized fuel points threshold iter g
     = Returns (result, g')).
Proof.
  intros Hfit. rewrite findDifferences_select. split.
  - intros out differences g'.
    destruct (EstimatePlaneRANSAC eigen RAND_MAX uninitialized fuel points
                threshold iter g) as [[planeParams g1] | e |];
      try discriminate.
    intros [= <- <- <-]. exists planeParams.
    rewrite classifier_inliersNum, classifier_distances, classifier_isInliers,
      (visited_fits points Hfit).
    repeat split; reflexivity.
  - intros Hr Hv. rewrite <- (of_size_fits points Hfit) in Hr, Hv.
    destruct (EstimatePlaneRANSAC_total eigen RAND_MAX uninitialized fuel
                points threshold iter g Hr Hv) as (plane & g' & ->).
    now eexists _, _.
Qed.

Lemma findDifferences_classifies_against_the_robust_fit_witness :
  fits_int Examples.square_and_outlier /\
  exists (result : list printed * RANSACDiffs) (g' : rand_state),
    findDifferences Examples.eigen_axes Examples.RAND_MAX_glibc
      Examples.stale 12 Examples.square_and_outlier Examples.half 4
      Examples.varied
    = Returns (result, g').
Proof.
  assert (Hfit : fits_int Examples.square_and_outlier)
    by (unfold fits_int, Int.INT_MAX; simpl; lia).
  split; [exact Hfit |].
  apply (findDifferences_classifies_against_the_robust_fit
           Examples.eigen_axes Examples.RAND_MAX_glibc Examples.stale 12
           Examples.square_and_outlier Examples.half 4 Examples.varied Hfit).
  - exact varied_in_range.
  - exact varied_vary.
Defined.

(** The run of the driver on the example. *)
Example findDifferences_run :
  findDifferences Examples.eigen_axes Examples.RAND_MAX_glibc
    Examples.stale 12 Examples.square_and_outlier Examples.half 4
    Examples.varied
  = Returns
      (([WholeDataFit {| pA := F32.zero; pB := F32.zero; pC := F32.of_int 1;
                         pD := F32.of_int (-2) |};
         RANSACFit {| pA := F32.zero; pB := F32.zero; pC := F32.of_int 1;
                      pD := S754_zero true |}],
        {| inliersNum := 4;
           distances := [F32.zero; F32.zero; F32.zero; F32.zero; Examples.ten];
           isInliers := [true; true; true; true; false] |}),
       {| rand_seq := rand_seq Examples.varied; rand_pos := 12 |}).
Proof. vm_compute. reflexivity. Qed.

(** X15. A threshold that is zero, negative or a NaN is not refused by the
    driver: when it returns, the robust plane it has printed has a NaN for
    [D], every distance it returns is a NaN, every flag is [false] and the
    inlier count is 0. *)
Theorem findDifferences_without_consensus
    (eigen : Mat33 -> Vec3 * Mat33) (RAND_MAX : Z) (uninitialized : Plane)
    (fuel : nat) (points : list Point3f) (threshold : F32.t) (iter : Z)
    (g g' : rand_state) (out : list printed) (differences : RANSACDiffs) :
  F32.leb threshold F32.zero = true \/ threshold = nan ->
  findDifferences eigen RAND_MAX uninitialized fuel points threshold iter g
  = Returns ((out, differences), g') ->
  (exists planeParams : Plane,
      nth_error out 1 = Some (RANSACFit planeParams) /\ pD planeParams = nan) /\
  Forall (fun d => d = nan) (distances differences) /\
  Forall (fun flag => flag = false) (isInliers differences) /\
  inliersNum differences = 0.
Proof.
  intros Hthr. rewrite findDifferences_select.
  destruct (EstimatePlaneRANSAC eigen RAND_MAX uninitialized fuel points
              threshold iter g) as [[planeParams g1] | e |] eqn:Hrun;
    try discriminate.
  intros [= <- <- <-].
  pose proof (EstimatePlaneRANSAC_no_consensus _ _ _ _ _ _ _ _ _ _ Hthr Hrun)
    as HD.
  assert (Hdiff : forall pt, point_plane_diff planeParams pt = nan).
  { intros pt. apply point_plane_diff_nan. tauto. }
  split; [exists planeParams; now split |].
  rewrite classifier_inliersNum, classifier_distances, classifier_isInliers.
  split; [| split].
  - apply Forall_forall. intros d Hin. apply in_map_iff in Hin.
    destruct Hin as (pt & <- & _). apply Hdiff.
  - apply Forall_forall. intros flag Hin. apply in_map_iff in Hin.
    destruct Hin as (pt & <- & _). unfold flag_of. now rewrite Hdiff.
  - rewrite count_true_all_false; [reflexivity |].
    intros pt. unfold flag_of. now rewrite Hdiff.
Qed.

Lemma findDifferences_without_consensus_witness :
  let planeNaN :=
    {| pA := F32.zero; pB := F32.zero; pC := F32.of_int 1; pD := nan |} in
  let out :=
    [WholeDataFit {| pA := F32.zero; pB := F32.zero; pC := F32.of_int 1;
                     pD := F32.of_int (-2) |};
     RANSACFit planeNaN] in
  let differences :=
    {| inliersNum := 0;
       distances := [nan; nan; nan; nan; nan];
       isInliers := [false; false; false; false; false] |} in
  let g12 := {| rand_seq := rand_seq Examples.varied; rand_pos := 12 |} in
  (F32.leb F32.zero F32.zero = true \/ F32.zero = nan) /\
  findDifferences Examples.eigen_axes Examples.RAND_MAX_glibc
    Examples.stale 12 Examples.square_and_outlier F32.zero 4 Examples.varied
  = Returns ((out, differences), g12) /\
  inliersNum differences = 0.
Proof.
  intros planeNaN out differences g12.
  assert (Hthr : F32.leb F32.zero F32.zero = true \/ F32.zero = nan)
    by (left; reflexivity).
  assert (Hrun : findDifferences Examples.eigen_axes Examples.RAND_MAX_glibc
                   Examples.stale 12 Examples.square_and_outlier F32.zero 4
                   Examples.varied
                 = Returns ((out, differences), g12))
    by (vm_compute; reflexivity).
  split; [exact Hthr |]. split; [exact Hrun |].
  apply (findDifferences_without_consensus _ _ _ _ _ _ _ _ _ _ _ Hthr Hrun).
Defined.

(** X16. On a cloud of one or two points, with at least one iteration and
    values of [rand()] that give indices in [0, n), the driver does not come
    back: the index loops of the first trial of its estimator never end. *)
Theorem findDifferences_diverges_below_three
    (eigen : Mat33 -> Vec3 * Mat33) (RAND_MAX : Z) (uninitialized : Plane)
    (fuel : nat) (points : list Point3f) (threshold : F32.t) (iter : Z)
    (g : rand_state) :
  length points = 1%nat \/ length points = 2%nat ->
  1 <= iter ->
  indices_in_range RAND_MAX (Z.of_nat (length points)) g ->
  findDifferences eigen RAND_MAX uninitialized fuel points threshold iter g
  = Diverges.
Proof.
  intros Hlen Hiter Hr. rewrite findDifferences_select.
  rewrite EstimatePlaneRANSAC_small; [reflexivity | lia | exact Hiter | exact Hr].
Qed.

Lemma findDifferences_diverges_below_three_witness :
  (length Examples.two_points = 1%nat \/ length Examples.two_points = 2%nat) /\
  1 <= 1 /\
  indices_in_range Examples.RAND_MAX_glibc
    (Z.of_nat (length Examples.two_points)) Examples.zeros /\
  findDifferences Examples.eigen_axes Examples.RAND_MAX_glibc
    Examples.stale 1000 Examples.two_points Examples.half 1 Examples.zeros
  = Diverges.
Proof.
  assert (Hlen : length Examples.two_points = 1%nat
                 \/ length Examples.two_points = 2%nat) by (right; reflexivity).
  assert (Hk : 1 <= 1) by lia.
  assert (Hr : indices_in_range Examples.RAND_MAX_glibc
                 (Z.of_nat (length Examples.two_points)) Examples.zeros)
    by exact zeros_in_range.
  split; [exact Hlen |]. split; [exact Hk |]. split; [exact Hr |].
  apply (findDifferences_diverges_below_three
           Examples.eigen_axes Examples.RAND_MAX_glibc Examples.stale 1000
           Examples.two_points Examples.half 1 Examples.zeros Hlen Hk Hr).
Defined.

(** ** Minimal samples with a NaN *)

(** X17. A minimal sample with a NaN among its coordinates never becomes the
    best candidate: the plane fitted to it has a NaN for [D], so no point
    of the cloud is within the threshold of it, its score is 0, and the
    best candidate so far, whose score is not negative, is kept. *)
Theorem nan_sample_is_never_kept
    (eigen : Mat33 -> Vec3 * Mat33) (pts : list Point3f) (threshold : F32.t)
    (pt1 pt2 pt3 : Point3f) (best : best_state) :
  has_nan pt1 \/ has_nan pt2 \/ has_nan pt3 ->
  0 <= bestSampleInlierNum best ->
  let samplePlane := EstimatePlaneOptimal eigen [pt1; pt2; pt3] in
  let sampleResult := PlanePointRANSACDifferences pts samplePlane threshold in
  pD samplePlane = nan /\
  inliersNum sampleResult = 0 /\
  update_best best samplePlane (inliersNum sampleResult) = best.
Proof.
  intros Hnan Hbest. cbv zeta.
  assert (Hfit : fits_int [pt1; pt2; pt3])
    by (unfold fits_int, Int.INT_MAX; cbn; lia).
  assert (HD : pD (EstimatePlaneOptimal eigen [pt1; pt2; pt3]) = nan).
  { apply EstimatePlaneOptimal_offset_nan.
    destruct Hnan as [H | [H | H]].
    - apply centre_of_gravity_nan with pt1; [| exact H].
      rewrite (visited_fits _ Hfit). cbn. tauto.
    - apply centre_of_gravity_nan with pt2; [| exact H].
      rewrite (visited_fits _ Hfit). cbn. tauto.
    - apply centre_of_gravity_nan with pt3; [| exact H].
      rewrite (visited_fits _ Hfit). cbn. tauto. }
  assert (Hscore : inliersNum (PlanePointRANSACDifferences pts
                                 (EstimatePlaneOptimal eigen [pt1; pt2; pt3])
                                 threshold) = 0).
  { rewrite classifier_inliersNum, classifier_isInliers,
      count_true_all_false; [reflexivity |].
    intros pt. unfold flag_of. rewrite point_plane_diff_nan; [reflexivity |].
    tauto. }
  split; [exact HD |]. split; [exact Hscore |].
  rewrite Hscore. unfold update_best. rewrite Z.gtb_ltb.
  destruct (Z.ltb_spec (bestSampleInlierNum best) 0); [lia | reflexivity].
Qed.

Lemma nan_sample_is_never_kept_witness :
  let hole := {| px := nan; py := F32.of_int 1; pz := F32.zero |} in
  let best0 := {| bestSampleInlierNum := 0; bestPlane := Examples.stale |} in
  (has_nan (Examples.pt 0 0 0) \/ has_nan hole \/ has_nan (Examples.pt 1 1 0)) /\
  0 <= bestSampleInlierNum best0 /\
  update_best best0
    (EstimatePlaneOptimal Examples.eigen_axes
       [Examples.pt 0 0 0; hole; Examples.pt 1 1 0])
    (inliersNum
       (PlanePointRANSACDifferences Examples.square_and_outlier
          (EstimatePlaneOptimal Examples.eigen_axes
             [Examples.pt 0 0 0; hole; Examples.pt 1 1 0])
          Examples.half))
  = best0.
Proof.
  intros hole best0.
  assert (Hnan : has_nan (Examples.pt 0 0 0) \/ has_nan hole
                 \/ has_nan (Examples.pt 1 1 0))
    by (right; left; left; reflexivity).
  assert (Hbest : 0 <= bestSampleInlierNum best0) by (cbn; lia).
  split; [exact Hnan |]. split; [exact Hbest |].
  apply (nan_sample_is_never_kept Examples.eigen_axes
           Examples.square_and_outlier Examples.half
           (Examples.pt 0 0 0) hole (Examples.pt 1 1 0) best0 Hnan Hbest).
Defined.

Lemma sample_indices_are_distinct_witness :
  sample_indices Examples.RAND_MAX_glibc 12 5 Examples.varied
  = Returns ((0, 2, 3), Examples.varied_after_3) /\
  0 <> 2 /\ 0 <> 3 /\ 2 <> 3.
Proof.
  assert (Hrun : sample_indices Examples.RAND_MAX_glibc 12 5 Examples.varied
                 = Returns ((0, 2, 3), Examples.varied_after_3))
    by (vm_compute; reflexivity).
  split; [exact Hrun |].
  destruct (sample_indices_are_distinct Examples.RAND_MAX_glibc 12 5
              Examples.varied) as [_ Hret].
  destruct (Hret 0 2 3 Examples.varied_after_3 Hrun)
    as (H12 & H13 & H23 & _).
  repeat split; assumption.
Defined.


(** ** The protocol of the estimator, where it is missed *)

Lemma nan_sample_score (eigen : Mat33 -> Vec3 * Mat33) (pts : list Point3f)
    (threshold : F32.t) (pt1 pt2 pt3 : Point3f) :
  has_nan pt1 \/ has_nan pt2 \/ has_nan pt3 ->
  inliersNum (PlanePointRANSACDifferences pts
                (EstimatePlaneOptimal eigen [pt1; pt2; pt3]) threshold) = 0.
Proof.
  intros Hnan.
  assert (Hfit : fits_int [pt1; pt2; pt3])
    by (unfold fits_int, Int.INT_MAX; cbn; lia).
  assert (HD : pD (EstimatePlaneOptimal eigen [pt1; pt2; pt3]) = nan).
  { apply EstimatePlaneOptimal_offset_nan.
    destruct Hnan as [H | [H | H]];
      [ apply centre_of_gravity_nan with pt1
      | apply centre_of_gravity_nan with pt2
      | apply centre_of_gravity_nan with pt3 ];
      try exact H; rewrite (visited_fits _ Hfit); cbn; tauto. }
  rewrite classifier_inliersNum, classifier_isInliers,
    count_true_all_false; [reflexivity |].
  intros pt. unfold flag_of. rewrite point_plane_diff_nan; [reflexivity |].
  tauto.
Qed.

(** C3, evaluated at two inputs with five points and one iteration, for
    every answer of [eigen], every content of the array [bestPlane] and
    every threshold.

    With [rand()] returning [RAND_MAX] first, the first trial draws the
    index 5 and [pts.at(5)] raises [std::out_of_range]: no trial is
    completed and nothing is refitted.

    With the third point not measured (a NaN coordinate) and a first trial
    that draws the indices 0, 2, 3, the candidate has a NaN for [D] and the
    score 0, which is not greater than the 0 the best score starts from:
    nothing is ever stored in the array, and the plane returned is the fit
    of the points within the threshold of whatever the array held, which
    differ with that content. *)
Theorem EstimatePlaneRANSAC_misses_its_protocol
    (eigen : Mat33 -> Vec3 * Mat33) (uninitialized : Plane)
    (threshold : F32.t) :
  EstimatePlaneRANSAC eigen Examples.RAND_MAX_glibc uninitialized 12
    Examples.square_and_outlier threshold 1 Examples.top_first
  = Throws out_of_range /\
  EstimatePlaneRANSAC eigen Examples.RAND_MAX_glibc uninitialized 12
    MoreExamples.holed threshold 1 Examples.varied
  = Returns
      (EstimatePlaneOptimal eigen
         (filter
            (fun pt => F32.ltb (point_plane_diff uninitialized pt) threshold)
            MoreExamples.holed),
       Examples.varied_after_3) /\
  filter (fun pt => F32.ltb (point_plane_diff Examples.stale pt) Examples.half)
    MoreExamples.holed
  <> filter
       (fun pt => F32.ltb (point_plane_diff Examples.plane_z0 pt) Examples.half)
       MoreExamples.holed.
Proof.
  split; [reflexivity |]. split.
  - rewrite EstimatePlaneRANSAC_select.
    change (Z.to_nat 1) with 1%nat.
    set (hole := {| px := nan; py := F32.of_int 1; pz := F32.zero |}).
    set (sample := [Examples.pt 0 0 0; hole; Examples.pt 1 1 0]).
    assert (Hs : sample_indices Examples.RAND_MAX_glibc 12
                   (Int.of_size (length MoreExamples.holed)) Examples.varied
                 = Returns ((0, 2, 3), Examples.varied_after_3))
      by (vm_compute; reflexivity).
    assert (Hm : minimal_sample MoreExamples.holed (0, 2, 3)
                   Examples.varied_after_3
                 = Returns (sample, Examples.varied_after_3))
      by reflexivity.
    assert (Hscore : inliersNum
                       (PlanePointRANSACDifferences MoreExamples.holed
                          (EstimatePlaneOptimal eigen sample) threshold) = 0).
    { apply nan_sample_score. right. left. left. reflexivity. }
    assert (Ht : trial_candidate eigen Examples.RAND_MAX_glibc 12
                   MoreExamples.holed threshold Examples.varied
                 = Returns ((EstimatePlaneOptimal eigen sample, 0),
                            Examples.varied_after_3)).
    { unfold trial_candidate.
      rewrite (bind_of_returns _ _ _ _ _ Hs), (bind_of_returns _ _ _ _ _ Hm).
      unfold ret. now rewrite Hscore. }
    cbn [candidates]. rewrite (bind_of_returns _ _ _ _ _ Ht).
    unfold bind, ret. cbv zeta.
    assert (Hfit : fits_int MoreExamples.holed)
      by (unfold fits_int, Int.INT_MAX; cbn; lia).
    rewrite (visited_fits _ Hfit). reflexivity.
  - vm_compute. discriminate.
Qed.
